(** * python-fmask: configuration objects and metadata readers

    A shallow embedding of [fmask/config.py] and of the angle reader of
    [bin/fmask_sentinel2Stacked.py], with the properties of the
    specification stated against it.

    Conventions of the embedding:
    - a Python [float] is an IEEE binary64 number, [PrimFloat.float];
    - a Python [dict] is a [gmap]; a [str] is a [string] of 8-bit characters;
    - a function that may raise returns a [result]; an exception is a
      constructor of [exn];
    - external libraries (GDAL, minidom, the file system) are environments
      passed explicitly. *)

From Stdlib Require Import ZArith List String Ascii Bool Lia.
From Stdlib Require Import PrimFloat SpecFloat FloatOps.
From stdpp Require Import base option list gmap strings.

Set Warnings "-inexact-float,-register-all".
Open Scope string_scope.
Open Scope Z_scope.

(** ** Exceptions and results *)

Module Py.

(** Modelled from the spec: the module [fmaskerrors], which [config.py]
    imports for its two exception classes. They are the error taxonomy of
    the specification: [FmaskParameterError] is the configuration error,
    [FmaskFileError] the file-format error. The other constructors are the
    built-in exceptions the code can run into. *)
Inductive exn : Type :=
  | TypeError
  | AttributeError
  | KeyError (key : string)
  | IndexError
  | ValueError
  | UnboundLocalError (name : string)
  | IOError
  | FmaskParameterError (msg : string)
  | FmaskFileError (msg : string).

Inductive result (A : Type) : Type :=
  | Ok (a : A)
  | Raise (e : exn).
Arguments Ok {A} a.
Arguments Raise {A} e.

Definition bind {A B : Type} (c : result A) (k : A -> result B) : result B :=
  match c with
  | Ok a => k a
  | Raise e => Raise e
  end.

(** Membership in the documented taxonomy. *)
Definition in_taxonomy (e : exn) : bool :=
  match e with
  | FmaskParameterError _ | FmaskFileError _ => true
  | _ => false
  end.

(** Dynamically typed values, as far as the code passes them around. *)
Inductive pyval : Type :=
  | PyNone
  | PyInt (z : Z)
  | PyFloat (f : float)
  | PyStr (s : string).

(** [a + b] on Python values: numbers add (an integer next to a float is
    converted to the nearest float first), strings concatenate, anything
    else is a [TypeError]. *)
Definition py_add (a b : pyval) : result pyval :=
  match a, b with
  | PyInt x, PyInt y => Ok (PyInt (x + y))
  | PyFloat x, PyFloat y => Ok (PyFloat (x + y)%float)
  | PyInt x, PyFloat y =>
      Ok (PyFloat (SF2Prim (binary_normalize prec emax x 0 false) + y)%float)
  | PyFloat x, PyInt y =>
      Ok (PyFloat (x + SF2Prim (binary_normalize prec emax y 0 false))%float)
  | PyStr x, PyStr y => Ok (PyStr (x ++ y))
  | _, _ => Raise TypeError
  end.

(** [d[k]] on a dictionary with string keys. *)
Definition getitem {V : Type} (d : gmap string V) (k : string) : result V :=
  match d !! k with
  | Some v => Ok v
  | None => Raise (KeyError k)
  end.

(** [k in d]. *)
Definition contains {V : Type} (d : gmap string V) (k : string) : bool :=
  match d !! k with Some _ => true | None => false end.

(** Reading a local variable that may not have been assigned yet. *)
Definition read_local {A : Type} (name : string) (v : option A) : result A :=
  match v with
  | Some a => Ok a
  | None => Raise (UnboundLocalError name)
  end.

End Py.
Import Py.

Notation "x <- c ;; k" := (bind c (fun x => k))
  (at level 100, c at next level, right associativity).

(** ** Strings *)

Module Str.

(** The characters [str.strip()] removes from a byte string: space, tab,
    newline, carriage return, vertical tab and form feed. *)
Definition is_space (c : ascii) : bool :=
  let n := nat_of_ascii c in
  (n =? 32)%nat || ((9 <=? n)%nat && (n <=? 13)%nat).

(** [s.strip(chars)], with the set of characters given as a predicate. *)
Fixpoint lstrip_chars (p : ascii -> bool) (s : string) : string :=
  match s with
  | EmptyString => EmptyString
  | String c s' => if p c then lstrip_chars p s' else s
  end.

Fixpoint rstrip_chars (p : ascii -> bool) (s : string) : string :=
  match s with
  | EmptyString => EmptyString
  | String c s' =>
      match rstrip_chars p s' with
      | EmptyString => if p c then EmptyString else String c EmptyString
      | r => String c r
      end
  end.

Definition strip_chars (p : ascii -> bool) (s : string) : string :=
  rstrip_chars p (lstrip_chars p s).

(** [s.strip()]. *)
Definition strip (s : string) : string := strip_chars is_space s.

(** [s.replace(old, new)] for a one-character [old]. *)
Fixpoint replace (old : ascii) (new : string) (s : string) : string :=
  match s with
  | EmptyString => EmptyString
  | String c s' =>
      if Ascii.eqb c old then new ++ replace old new s'
      else String c (replace old new s')
  end.

(** [s.split(sep)] for a one-character [sep]: one more piece than there are
    separators. *)
Fixpoint split (sep : ascii) (s : string) : list string :=
  match s with
  | EmptyString => [EmptyString]
  | String c s' =>
      if Ascii.eqb c sep then EmptyString :: split sep s'
      else match split sep s' with
           | h :: t => String c h :: t
           | [] => [String c EmptyString]
           end
  end.

Fixpoint count (c : ascii) (s : string) : nat :=
  match s with
  | EmptyString => O
  | String d s' => if Ascii.eqb d c then S (count c s') else count c s'
  end.

Definition quote : ascii := "034".
Definition newline : ascii := "010".
Definition equals : ascii := "=".

(** The lines of a text, each with its terminating newline, as iterating
    over an open file yields them; a line ends at a newline character. *)
Fixpoint file_lines (s : string) : list string :=
  match s with
  | EmptyString => []
  | String c s' =>
      if Ascii.eqb c newline then String c EmptyString :: file_lines s'
      else match file_lines s' with
           | h :: t => String c h :: t
           | [] => [String c EmptyString]
           end
  end.

End Str.

(** ** The MTL reader ([readMTLFile]) *)

(** The file system: the text of each readable file. *)
Abbreviation filesystem := (gmap string string).

Definition open (fs : filesystem) (path : string) : result string :=
  match fs !! path with
  | Some text => Ok text
  | None => Raise IOError
  end.

(** The body of the loop of [readMTLFile]: one line, one dictionary update. *)
Definition readMTLLine (dict : gmap string string) (line : string)
  : gmap string string :=
  match Str.split Str.equals line with
  | [key; value] =>
      <[Str.strip key := Str.strip (Str.replace Str.quote EmptyString value)]> dict
  | _ => dict
  end.

Definition readMTLLines (lines : list string) : gmap string string :=
  foldl readMTLLine ∅ lines.

Definition readMTLFile (fs : filesystem) (mtl : string)
  : result (gmap string string) :=
  text <- open fs mtl ;;
  Ok (readMTLLines (Str.file_lines text)).

(** ** Floating-point numbers *)

Module Float.

(** Conversion of an integer to the nearest binary64 number (ties to even),
    as [ndarray.astype(float)] and [float(int)] do. *)
Definition of_Z (z : Z) : float :=
  SF2Prim (binary_normalize prec emax z 0 false).

(** [m * 10^e] rounded to the nearest binary64 number, [m >= 0]. *)
Definition of_decimal (neg : bool) (m e : Z) : float :=
  match m with
  | Zpos p =>
      if 0 <=? e
      then SF2Prim (binary_round prec emax neg (p * Z.to_pos (10 ^ e))%positive 0)
      else SF2Prim (SFdiv prec emax (S754_finite neg p 0)
                      (S754_finite false (Z.to_pos (10 ^ (- e))) 0))
  | _ => if neg then neg_zero else zero
  end.

Definition digit (c : ascii) : option Z :=
  let n := Z.of_nat (nat_of_ascii c) in
  if (48 <=? n) && (n <=? 57) then Some (n - 48) else None.

(** Reads a run of decimal digits: the number read on top of [acc], how many
    digits were read, and the rest of the string. *)
Fixpoint digits (s : string) (acc count : Z) : Z * Z * string :=
  match s with
  | EmptyString => (acc, count, s)
  | String c s' =>
      match digit c with
      | Some d => digits s' (10 * acc + d) (count + 1)
      | None => (acc, count, s)
      end
  end.

Definition sign (s : string) : bool * string :=
  match s with
  | String "-" s' => (true, s')
  | String "+" s' => (false, s')
  | _ => (false, s)
  end.

Definition lower (c : ascii) : ascii :=
  let n := nat_of_ascii c in
  if ((65 <=? n) && (n <=? 90))%nat then ascii_of_nat (n + 32) else c.

Fixpoint lowercase (s : string) : string :=
  match s with
  | EmptyString => EmptyString
  | String c s' => String (lower c) (lowercase s')
  end.

(** The optional exponent part: [e], an optional sign and at least one
    digit, up to the end of the string. *)
Definition exponent (s : string) : option Z :=
  match s with
  | EmptyString => Some 0
  | String c s' =>
      if Ascii.eqb (lower c) "e" then
        let '(neg, s'') := sign s' in
        match digits s'' 0 0 with
        | (e, n, EmptyString) =>
            if 0 <? n then Some (if neg then - e else e) else None
        | _ => None
        end
      else None
  end.

(** The built-in [float(s)] on a string: surrounding whitespace is ignored;
    then a sign, and either one of [inf], [infinity], [nan] in any case or a
    decimal numeral with an optional fraction and exponent. The result is
    the correctly rounded binary64 number; anything else is a [ValueError].
    (Digit grouping with underscores, which later Python versions accept,
    is not read.) *)
Definition py_float (s : string) : result float :=
  let '(neg, body) := sign (Str.strip s) in
  let word := lowercase body in
  if (String.eqb word "inf" || String.eqb word "infinity")%bool
  then Ok (if neg then neg_infinity else infinity)
  else if String.eqb word "nan" then Ok nan
  else
    let '(ip, ni, r1) := digits body 0 0 in
    let '(m, nf, r2) :=
      match r1 with
      | String "." r => digits r ip 0
      | _ => (ip, 0, r1)
      end in
    if 0 <? ni + nf then
      match exponent r2 with
      | Some e => Ok (of_decimal neg m (e - nf))
      | None => Raise ValueError
      end
    else Raise ValueError.

(** [numpy.radians]: multiplication by the constant [pi / 180]. *)
Definition pi : float := 3.141592653589793%float.
Definition np_radians (x : float) : float := (x * (pi / 180))%float.

(** [scipy.constants.zero_Celsius]. *)
Definition zero_Celsius : float := 273.15%float.

End Float.

(** ** Arrays *)

Module Np.

(** A two-dimensional array, row by row. *)
Definition array2 (A : Type) : Type := list (list A).

Definition map2 {A B : Type} (f : A -> B) (a : array2 A) : array2 B :=
  map (map f) a.

(** [seq[i]] with Python's rule for a negative index; out of range is an
    [IndexError]. *)
Definition index {A : Type} (l : list A) (i : Z) : result A :=
  let n := Z.of_nat (length l) in
  let j := if i <? 0 then i + n else i in
  if (0 <=? j) && (j <? n) then
    match nth_error l (Z.to_nat j) with
    | Some a => Ok a
    | None => Raise IndexError
    end
  else Raise IndexError.

(** [a.astype(float)] on an integer array. *)
Definition astype_float (a : array2 Z) : array2 float := map2 Float.of_Z a.

(** Arithmetic between an array and a scalar, element by element. *)
Definition mul_scalar (a : array2 float) (s : float) : array2 float :=
  map2 (fun x => (x * s)%float) a.
Definition add_scalar (a : array2 float) (s : float) : array2 float :=
  map2 (fun x => (x + s)%float) a.
Definition sub_scalar (a : array2 float) (s : float) : array2 float :=
  map2 (fun x => (x - s)%float) a.
Definition scalar_div (s : float) (a : array2 float) : array2 float :=
  map2 (fun x => (s / x)%float) a.

(** [a <= s], the boolean mask. *)
Definition le_scalar (a : array2 float) (s : float) : array2 bool :=
  map2 (fun x => (x <=? s)%float) a.

(** [a[mask] = v]: the elements under the mask are overwritten. *)
Definition assign_masked (a : array2 float) (mask : array2 bool) (v : float)
  : array2 float :=
  zip_with (zip_with (fun x (m : bool) => if m then v else x)) a mask.

(** The region of a query: the (row, column) pairs of an index tuple. *)
Definition indices : Type := list (Z * Z).

Fixpoint take {A : Type} (a : array2 A) (idx : indices) : result (list A) :=
  match idx with
  | [] => Ok []
  | (r, c) :: rest =>
      row <- index a r ;;
      x <- index row c ;;
      xs <- take a rest ;;
      Ok (x :: xs)
  end.

End Np.

(** The functions of numpy that are taken as given: the natural logarithm
    of the C library and the mean of a one-dimensional array. *)
Class Numpy := {
  np_log : float -> float;
  np_mean : list float -> float
}.

Definition np_log_array `{Numpy} (a : Np.array2 float) : Np.array2 float :=
  Np.map2 np_log a.

(** ** Thermal information ([ThermalFileInfo]) *)

Record ThermalFileInfo : Type := mkThermalFileInfo {
  thermalBand1040um : Z;
  thermalGain1040um : float;
  thermalOffset1040um : float;
  thermalK1_1040um : float;
  thermalK2_1040um : float
}.

Definition scaleThermalDNtoC `{Numpy} (self : ThermalFileInfo)
    (scaledBT : list (Np.array2 Z)) : result (Np.array2 float) :=
  let KELVIN_ZERO_DEGC := Float.zero_Celsius in
  band <- Np.index scaledBT (thermalBand1040um self) ;;
  let rad :=
    Np.add_scalar
      (Np.mul_scalar (Np.astype_float band) (thermalGain1040um self))
      (thermalOffset1040um self) in
  let rad := Np.assign_masked rad (Np.le_scalar rad 0%float) 0.00001%float in
  let temp :=
    Np.scalar_div (thermalK2_1040um self)
      (np_log_array
         (Np.add_scalar (Np.scalar_div (thermalK1_1040um self) rad) 1.0%float)) in
  let bt := Np.sub_scalar temp KELVIN_ZERO_DEGC in
  Ok bt.

(** The conversion of one digital number, in the words of the specification:
    radiance, clamp, Planck inversion, Kelvin to Celsius. *)
Definition radiance_of_DN (self : ThermalFileInfo) (dn : Z) : float :=
  (Float.of_Z dn * thermalGain1040um self + thermalOffset1040um self)%float.

Definition clamp_radiance (rad : float) : float :=
  if (rad <=? 0)%float then 0.00001%float else rad.

Definition temperatureKelvin `{Numpy} (self : ThermalFileInfo) (rad : float)
  : float :=
  (thermalK2_1040um self / np_log (thermalK1_1040um self / rad + 1.0))%float.

Definition celsius_of_DN `{Numpy} (self : ThermalFileInfo) (dn : Z) : float :=
  (temperatureKelvin self (clamp_radiance (radiance_of_DN self dn))
   - 273.15)%float.

(** ** Thermal information from an MTL file *)

(** [template % arg] for a template with one [%s]. *)
Fixpoint percent_s (template arg : string) : string :=
  match template with
  | EmptyString => EmptyString
  | String c rest =>
      match rest with
      | String "s" rest' =>
          if Ascii.eqb c "%" then arg ++ rest'
          else String c (percent_s rest arg)
      | _ => String c (percent_s rest arg)
      end
  end.

Definition LANDSAT_RADIANCE_MULT : string := "RADIANCE_MULT_BAND_%s".
Definition LANDSAT_RADIANCE_ADD : string := "RADIANCE_ADD_BAND_%s".
Definition LANDSAT_K1_CONST : string := "K1_CONSTANT_BAND_%s".
Definition LANDSAT_K2_CONST : string := "K2_CONSTANT_BAND_%s".

Definition LANDSAT_TH_BAND_NUM_DICT : gmap string string :=
  <["LANDSAT_4" := "6"]> (<["LANDSAT_5" := "6"]>
  (<["LANDSAT_7" := "6_VCID_1"]> (<["LANDSAT_8" := "10"]> ∅))).

Definition LANDSAT_K1_DICT : gmap string float :=
  <["TM" := 607.76%float]> (<["ETM" := 666.09%float]> ∅).
Definition LANDSAT_K2_DICT : gmap string float :=
  <["TM" := 1260.56%float]> (<["ETM" := 1282.71%float]> ∅).

(** [float(mtlData[s])]. *)
Definition float_item (mtlData : gmap string string) (s : string)
  : result float :=
  v <- getitem mtlData s ;;
  Float.py_float v.

(** The body of [readThermalInfoFromLandsatMTL] once the file is read. The
    local [band] is assigned in the first block only, so it is carried as an
    optional value and read with [read_local] in the second block. *)
Definition thermalInfoFromMTLData (mtlData : gmap string string)
    (thermalBand1040um : Z) : result ThermalFileInfo :=
  spacecraft_block <-
    (if contains mtlData "SPACECRAFT_ID" then
       spaceCraft <- getitem mtlData "SPACECRAFT_ID" ;;
       band <- getitem LANDSAT_TH_BAND_NUM_DICT spaceCraft ;;
       gain <- float_item mtlData (percent_s LANDSAT_RADIANCE_MULT band) ;;
       offset <- float_item mtlData (percent_s LANDSAT_RADIANCE_ADD band) ;;
       Ok (Some band, Some gain, Some offset)
     else Ok (None, None, None)) ;;
  let '(band, gain, offset) := spacecraft_block in
  sensor_block <-
    (if contains mtlData "SENSOR_ID" then
       sensor <- getitem mtlData "SENSOR_ID" ;;
       b <- read_local "band" band ;;
       let s := percent_s LANDSAT_K1_CONST b in
       k1 <- (if contains mtlData s then float_item mtlData s
              else getitem LANDSAT_K1_DICT sensor) ;;
       b <- read_local "band" band ;;
       let s := percent_s LANDSAT_K2_CONST b in
       k2 <- (if contains mtlData s then float_item mtlData s
              else getitem LANDSAT_K1_DICT sensor) ;;
       Ok (Some k1, Some k2)
     else Ok (None, None)) ;;
  let '(k1, k2) := sensor_block in
  match gain, offset, k1, k2 with
  | Some gain, Some offset, Some k1, Some k2 =>
      Ok (mkThermalFileInfo thermalBand1040um gain offset k1 k2)
  | _, _, _, _ =>
      Raise (FmaskFileError "Cannot find SPACECRAFT_ID/SENSOR_ID in MTL file")
  end.

Definition readThermalInfoFromLandsatMTL (fs : filesystem) (mtlfile : string)
    (thermalBand1040um : Z) : result ThermalFileInfo :=
  mtlData <- readMTLFile fs mtlfile ;;
  thermalInfoFromMTLData mtlData thermalBand1040um.

(** ** GDAL and RIOS *)

(** What the code sees of GDAL: for each file that opens, the raster bands
    of the dataset; for each driver name, the metadata of the driver. RIOS
    contributes the name of its default driver. *)
Record Gdal : Type := mkGdal {
  gdal_datasets : gmap string (list (Np.array2 float));
  gdal_drivers : gmap string (gmap string string);
  DEFAULTDRIVERNAME : string
}.

(** [gdal.Open(filename)]: the dataset, or [None] when the file does not
    open; a file name that is not a string is a [TypeError]. *)
Definition gdal_Open (gdal : Gdal) (filename : pyval)
  : result (option (list (Np.array2 float))) :=
  match filename with
  | PyStr name => Ok (gdal_datasets gdal !! name)
  | _ => Raise TypeError
  end.

(** [ds.GetRasterBand(n)], bands counted from one: the band, or [None] when
    there is no such band; a band number that is not an integer is a
    [TypeError]. *)
Definition GetRasterBand (ds : list (Np.array2 float)) (n : pyval)
  : result (option (Np.array2 float)) :=
  match n with
  | PyInt i =>
      if (1 <=? i) && (i <=? Z.of_nat (length ds))
      then Ok (nth_error ds (Z.to_nat (i - 1)))
      else Ok None
  | _ => Raise TypeError
  end.

(** An attribute or method looked up on a value that may be [None]. *)
Definition attr_of {A : Type} (v : option A) : result A :=
  match v with
  | Some a => Ok a
  | None => Raise AttributeError
  end.

(** ** Angles ([AnglesInfo] and its two implementations) *)

(** The interface of [AnglesInfo]. Preparing and releasing change the
    object, so they return the object as it is afterwards next to the
    outcome. *)
Class AnglesInfo (T : Type) := {
  prepareForQuerying : Gdal -> T -> T * result unit;
  releaseMemory : T -> T * result unit;
  getSolarZenithAngle : T -> Np.indices -> result pyval;
  getSolarAzimuthAngle : T -> Np.indices -> result pyval;
  getViewZenithAngle : T -> Np.indices -> result pyval;
  getViewAzimuthAngle : T -> Np.indices -> result pyval
}.

(** The methods of the base class that do nothing. *)
Definition base_prepareForQuerying {T : Type} (gdal : Gdal) (self : T)
  : T * result unit := (self, Ok tt).
Definition base_releaseMemory {T : Type} (self : T) : T * result unit :=
  (self, Ok tt).

(** *** [AnglesFileInfo] *)

(** An instance attribute that holds a buffer: deleted, [None], or an
    array. *)
Inductive buffer : Type :=
  | Deleted
  | IsNone
  | Data (a : Np.array2 float).

Record AnglesFileInfo : Type := mkAnglesFileInfo {
  solarZenithFilename : string;
  solarZenithBand : Z;
  solarAzimuthFilename : string;
  solarAzimuthBand : Z;
  viewZenithFilename : string;
  viewZenithBand : Z;
  viewAzimuthFilename : string;
  viewAzimuthBand : Z;
  solarZenithData : buffer;
  solarAzimuthData : buffer;
  viewZenithData : buffer;
  viewAzimuthData : buffer
}.

Module AnglesFile.

Definition init (solarZenithFilename : string) (solarZenithBand : Z)
    (solarAzimuthFilename : string) (solarAzimuthBand : Z)
    (viewZenithFilename : string) (viewZenithBand : Z)
    (viewAzimuthFilename : string) (viewAzimuthBand : Z) : AnglesFileInfo :=
  mkAnglesFileInfo solarZenithFilename solarZenithBand
    solarAzimuthFilename solarAzimuthBand
    viewZenithFilename viewZenithBand
    viewAzimuthFilename viewAzimuthBand
    IsNone IsNone IsNone IsNone.

Definition readData (gdal : Gdal) (filename bandNum : pyval)
  : result (Np.array2 float) :=
  ds <- gdal_Open gdal filename ;;
  GetRasterBand_of_ds <- attr_of ds ;;
  n <- py_add bandNum (PyInt 1) ;;
  band <- GetRasterBand GetRasterBand_of_ds n ;;
  ReadAsArray_of_band <- attr_of band ;;
  Ok ReadAsArray_of_band.

Definition set_solarZenithData (d : buffer) (a : AnglesFileInfo) :=
  mkAnglesFileInfo (solarZenithFilename a) (solarZenithBand a)
    (solarAzimuthFilename a) (solarAzimuthBand a)
    (viewZenithFilename a) (viewZenithBand a)
    (viewAzimuthFilename a) (viewAzimuthBand a)
    d (solarAzimuthData a) (viewZenithData a) (viewAzimuthData a).
Definition set_solarAzimuthData (d : buffer) (a : AnglesFileInfo) :=
  mkAnglesFileInfo (solarZenithFilename a) (solarZenithBand a)
    (solarAzimuthFilename a) (solarAzimuthBand a)
    (viewZenithFilename a) (viewZenithBand a)
    (viewAzimuthFilename a) (viewAzimuthBand a)
    (solarZenithData a) d (viewZenithData a) (viewAzimuthData a).
Definition set_viewZenithData (d : buffer) (a : AnglesFileInfo) :=
  mkAnglesFileInfo (solarZenithFilename a) (solarZenithBand a)
    (solarAzimuthFilename a) (solarAzimuthBand a)
    (viewZenithFilename a) (viewZenithBand a)
    (viewAzimuthFilename a) (viewAzimuthBand a)
    (solarZenithData a) (solarAzimuthData a) d (viewAzimuthData a).
Definition set_viewAzimuthData (d : buffer) (a : AnglesFileInfo) :=
  mkAnglesFileInfo (solarZenithFilename a) (solarZenithBand a)
    (solarAzimuthFilename a) (solarAzimuthBand a)
    (viewZenithFilename a) (viewZenithBand a)
    (viewAzimuthFilename a) (viewAzimuthBand a)
    (solarZenithData a) (solarAzimuthData a) (viewZenithData a) d.

(** One assignment [self.x = self.readData(...)] followed by the rest of
    the method: a failed read leaves the object as it is and stops. *)
Definition assign (set : buffer -> AnglesFileInfo -> AnglesFileInfo)
    (read : result (Np.array2 float))
    (rest : AnglesFileInfo -> AnglesFileInfo * result unit)
    (self : AnglesFileInfo) : AnglesFileInfo * result unit :=
  match read with
  | Ok data => rest (set (Data data) self)
  | Raise e => (self, Raise e)
  end.

(** The second argument of each call is the file name again, as in the
    source. *)
Definition prepareForQuerying (gdal : Gdal) (self : AnglesFileInfo)
  : AnglesFileInfo * result unit :=
  assign set_solarZenithData
    (readData gdal (PyStr (solarZenithFilename self))
                   (PyStr (solarZenithFilename self)))
  (assign set_solarAzimuthData
    (readData gdal (PyStr (solarAzimuthFilename self))
                   (PyStr (solarAzimuthFilename self)))
  (assign set_viewZenithData
    (readData gdal (PyStr (viewZenithFilename self))
                   (PyStr (viewZenithFilename self)))
  (assign set_viewAzimuthData
    (readData gdal (PyStr (viewAzimuthFilename self))
                   (PyStr (viewAzimuthFilename self)))
  (fun self => (self, Ok tt))))) self.

(** [del self.x]: deleting an attribute that is already gone is an
    [AttributeError]. *)
Definition del (get : AnglesFileInfo -> buffer)
    (set : buffer -> AnglesFileInfo -> AnglesFileInfo)
    (rest : AnglesFileInfo -> AnglesFileInfo * result unit)
    (self : AnglesFileInfo) : AnglesFileInfo * result unit :=
  match get self with
  | Deleted => (self, Raise AttributeError)
  | _ => rest (set Deleted self)
  end.

Definition releaseMemory (self : AnglesFileInfo)
  : AnglesFileInfo * result unit :=
  del solarZenithData set_solarZenithData
  (del solarAzimuthData set_solarAzimuthData
  (del viewZenithData set_viewZenithData
  (del viewAzimuthData set_viewAzimuthData
  (fun self => (self, Ok tt))))) self.

(** [data[indices].mean()]: a deleted attribute is an [AttributeError],
    [None] cannot be subscripted ([TypeError]). *)
Definition mean_over `{Numpy} (data : buffer) (indices : Np.indices)
  : result pyval :=
  match data with
  | Deleted => Raise AttributeError
  | IsNone => Raise TypeError
  | Data a =>
      selected <- Np.take a indices ;;
      Ok (PyFloat (np_mean selected))
  end.

Definition getSolarZenithAngle `{Numpy} (self : AnglesFileInfo)
    (indices : Np.indices) : result pyval :=
  mean_over (solarZenithData self) indices.
Definition getSolarAzimuthAngle `{Numpy} (self : AnglesFileInfo)
    (indices : Np.indices) : result pyval :=
  mean_over (solarAzimuthData self) indices.
Definition getViewZenithAngle `{Numpy} (self : AnglesFileInfo)
    (indices : Np.indices) : result pyval :=
  mean_over (viewZenithData self) indices.
Definition getViewAzimuthAngle `{Numpy} (self : AnglesFileInfo)
    (indices : Np.indices) : result pyval :=
  mean_over (viewAzimuthData self) indices.

End AnglesFile.

#[export] Instance AnglesFileInfo_AnglesInfo `{Numpy} : AnglesInfo AnglesFileInfo := {
  prepareForQuerying := AnglesFile.prepareForQuerying;
  releaseMemory := AnglesFile.releaseMemory;
  getSolarZenithAngle := AnglesFile.getSolarZenithAngle;
  getSolarAzimuthAngle := AnglesFile.getSolarAzimuthAngle;
  getViewZenithAngle := AnglesFile.getViewZenithAngle;
  getViewAzimuthAngle := AnglesFile.getViewAzimuthAngle
}.

(** *** [AngleConstantInfo] *)

Record AngleConstantInfo : Type := mkAngleConstantInfo {
  solarZenithAngle : pyval;
  solarAzimuthAngle : pyval;
  viewZenithAngle : pyval;
  viewAzimuthAngle : pyval
}.

Module AngleConstant.

Definition init (solarZenithAngle solarAzimuthAngle viewZenithAngle
    viewAzimuthAngle : pyval) : AngleConstantInfo :=
  mkAngleConstantInfo solarZenithAngle solarAzimuthAngle viewZenithAngle
    viewAzimuthAngle.

Definition getSolarZenithAngle (self : AngleConstantInfo)
    (indices : Np.indices) : result pyval := Ok (solarZenithAngle self).
Definition getSolarAzimuthAngle (self : AngleConstantInfo)
    (indices : Np.indices) : result pyval := Ok (solarAzimuthAngle self).
Definition getViewZenithAngle (self : AngleConstantInfo)
    (indices : Np.indices) : result pyval := Ok (viewZenithAngle self).
Definition getViewAzimuthAngle (self : AngleConstantInfo)
    (indices : Np.indices) : result pyval := Ok (viewAzimuthAngle self).

End AngleConstant.

#[export] Instance AngleConstantInfo_AnglesInfo : AnglesInfo AngleConstantInfo := {
  prepareForQuerying := base_prepareForQuerying;
  releaseMemory := base_releaseMemory;
  getSolarZenithAngle := AngleConstant.getSolarZenithAngle;
  getSolarAzimuthAngle := AngleConstant.getSolarAzimuthAngle;
  getViewZenithAngle := AngleConstant.getViewZenithAngle;
  getViewAzimuthAngle := AngleConstant.getViewAzimuthAngle
}.

(** *** Angles from an MTL file *)

(** The body of [readAnglesFromLandsatMTL] once the file is read. *)
Definition anglesFromMTLData (mtlInfo : gmap string string)
  : result AngleConstantInfo :=
  saa <- (if contains mtlInfo "SUN_AZIMUTH" then
            v <- float_item mtlInfo "SUN_AZIMUTH" ;;
            Ok (Some (Float.np_radians v))
          else Ok None) ;;
  sza <- (if contains mtlInfo "SUN_ELEVATION" then
            v <- float_item mtlInfo "SUN_ELEVATION" ;;
            Ok (Some (Float.np_radians (90.0 - v)%float))
          else Ok None) ;;
  match saa, sza with
  | Some saa, Some sza =>
      Ok (AngleConstant.init (PyFloat sza) (PyFloat saa)
            (PyFloat 0.0) (PyFloat 0.0))
  | _, _ =>
      Raise (FmaskFileError
               "Cannot find SUN_AZIMUTH/SUN_ELEVATION fields in MTL file")
  end.

Definition readAnglesFromLandsatMTL (fs : filesystem) (mtlfile : string)
  : result AngleConstantInfo :=
  mtlInfo <- readMTLFile fs mtlfile ;;
  anglesFromMTLData mtlInfo.

(** ** The configuration ([FmaskConfig]) *)

Definition FMASK_LANDSAT47 : Z := 0.
Definition FMASK_LANDSAT8 : Z := 1.
Definition FMASK_SENTINEL2 : Z := 2.

Definition BAND_BLUE : Z := 0.
Definition BAND_GREEN : Z := 1.
Definition BAND_RED : Z := 2.
Definition BAND_NIR : Z := 3.
Definition BAND_CIRRUS : Z := 4.
Definition BAND_SWIR1 : Z := 5.
Definition BAND_SWIR2 : Z := 6.

(** An object that implements [AnglesInfo]. *)
Inductive angles_object : Type :=
  | ConstantAngles (a : AngleConstantInfo)
  | FileAngles (a : AnglesFileInfo).

Record FmaskConfig : Type := mkFmaskConfig {
  sensor : Z;
  bands : gmap Z Z;
  thermalInfo : option ThermalFileInfo;
  anglesInfo : option angles_object;
  defaultExtension : string;
  keepIntermediates : bool;
  cloudBufferSize : Z;
  shadowBufferSize : Z;
  verbose : bool;
  strictFmask : bool;
  tempDir : string
}.

Module Config.

(** The dictionary literal of each sensor, keys in the order written. *)
Definition default_bands (sensor : Z) : result (gmap Z Z) :=
  if sensor =? FMASK_LANDSAT47 then
    Ok (<[BAND_SWIR2 := 5]> (<[BAND_SWIR1 := 4]> (<[BAND_NIR := 3]>
       (<[BAND_RED := 2]> (<[BAND_GREEN := 1]> (<[BAND_BLUE := 0]> ∅))))))
  else if sensor =? FMASK_LANDSAT8 then
    Ok (<[BAND_CIRRUS := 7]> (<[BAND_SWIR2 := 6]> (<[BAND_SWIR1 := 5]>
       (<[BAND_NIR := 4]> (<[BAND_RED := 3]> (<[BAND_GREEN := 2]>
       (<[BAND_BLUE := 1]> ∅)))))))
  else if sensor =? FMASK_SENTINEL2 then
    Ok (<[BAND_CIRRUS := 9]> (<[BAND_SWIR2 := 11]> (<[BAND_SWIR1 := 10]>
       (<[BAND_NIR := 6]> (<[BAND_RED := 3]> (<[BAND_GREEN := 2]>
       (<[BAND_BLUE := 1]> ∅)))))))
  else Raise (FmaskParameterError "unrecognised sensor").

Definition init (gdal : Gdal) (sensor : Z) : result FmaskConfig :=
  bands <- default_bands sensor ;;
  match gdal_drivers gdal !! DEFAULTDRIVERNAME gdal with
  | None =>
      Raise (FmaskParameterError
               (percent_s "Cannot find GDAL driver %s used by RIOS"
                  (DEFAULTDRIVERNAME gdal)))
  | Some driver =>
      let defaultExtension :=
        match driver !! "DMD_EXTENSION" with
        | None => ".tmp"
        | Some ext => "." ++ ext
        end in
      Ok (mkFmaskConfig sensor bands None None defaultExtension
            false 5 10 false false ".")
  end.

Definition setReflectiveBand (self : FmaskConfig) (band index : Z)
  : FmaskConfig :=
  let '(mkFmaskConfig s b t a e k c sh v st td) := self in
  mkFmaskConfig s (<[band := index]> b) t a e k c sh v st td.

Definition setThermalInfo (self : FmaskConfig) (info : option ThermalFileInfo)
  : FmaskConfig :=
  let '(mkFmaskConfig s b t a e k c sh v st td) := self in
  mkFmaskConfig s b info a e k c sh v st td.

Definition setAnglesInfo (self : FmaskConfig) (info : option angles_object)
  : FmaskConfig :=
  let '(mkFmaskConfig s b t a e k c sh v st td) := self in
  mkFmaskConfig s b t info e k c sh v st td.

Definition setKeepIntermediates (self : FmaskConfig) (keep : bool)
  : FmaskConfig :=
  let '(mkFmaskConfig s b t a e k c sh v st td) := self in
  mkFmaskConfig s b t a e keep c sh v st td.

Definition setCloudBufferSize (self : FmaskConfig) (bufferSize : Z)
  : FmaskConfig :=
  let '(mkFmaskConfig s b t a e k c sh v st td) := self in
  mkFmaskConfig s b t a e k bufferSize sh v st td.

Definition setShadowBufferSize (self : FmaskConfig) (bufferSize : Z)
  : FmaskConfig :=
  let '(mkFmaskConfig s b t a e k c sh v st td) := self in
  mkFmaskConfig s b t a e k c bufferSize v st td.

Definition setVerbose (self : FmaskConfig) (verbose : bool) : FmaskConfig :=
  let '(mkFmaskConfig s b t a e k c sh v st td) := self in
  mkFmaskConfig s b t a e k c sh verbose st td.

Definition setStrictFmask (self : FmaskConfig) (strict : bool) : FmaskConfig :=
  let '(mkFmaskConfig s b t a e k c sh v st td) := self in
  mkFmaskConfig s b t a e k c sh v strict td.

Definition setTempDir (self : FmaskConfig) (dir : string) : FmaskConfig :=
  let '(mkFmaskConfig s b t a e k c sh v st td) := self in
  mkFmaskConfig s b t a e k c sh v st dir.

Definition setDefaultExtension (self : FmaskConfig) (extension : string)
  : FmaskConfig :=
  let '(mkFmaskConfig s b t a e k c sh v st td) := self in
  mkFmaskConfig s b t a extension k c sh v st td.

(** A sequence of [setReflectiveBand] calls, first call first. *)
Definition setReflectiveBands (self : FmaskConfig) (calls : list (Z * Z))
  : FmaskConfig :=
  foldl (fun cfg call => setReflectiveBand cfg call.1 call.2) self calls.

(** The invariant of the band layout in the specification: no two roles
    share a file index. *)
Definition indices_unique (b : gmap Z Z) : Prop :=
  forall role1 role2 index,
    b !! role1 = Some index -> b !! role2 = Some index -> role1 = role2.

End Config.

(** ** The Sentinel-2 angle reader ([fmask_sentinel2Stacked.py]) *)

Module Sentinel2.

(** The nodes of a parsed document that matter here: elements, and the two
    kinds of character data. *)
Inductive node : Type :=
  | Element (tagName : string) (childNodes : list node)
  | Text (data : string)
  | Comment (data : string).

(** What [minidom.parse] returns for each file name: the children of the
    document node, or the exception it raises. *)
Class Minidom := { minidom_parse : string -> result (list node) }.

(** The elements with the given tag among a node and what is below it, in
    document order. *)
Fixpoint elements_named (name : string) (n : node) : list node :=
  match n with
  | Element tag children =>
      (if String.eqb tag name then [n] else [])
      ++ flat_map (elements_named name) children
  | _ => []
  end.

(** [parent.getElementsByTagName(name)]: the search is over what is below
    the parent. *)
Definition getElementsByTagName (children : list node) (name : string)
  : list node :=
  flat_map (elements_named name) children.

Definition childNodes_of (n : node) : list node :=
  match n with
  | Element _ children => children
  | _ => []
  end.

(** [n.firstChild]. *)
Definition firstChild (n : node) : option node := head (childNodes_of n).

(** [n.data]: only character data has it. *)
Definition data_of (n : option node) : result string :=
  match n with
  | Some (Text d) | Some (Comment d) => Ok d
  | _ => Raise AttributeError
  end.

(** The body of [getMeanSunAngles] once the file is parsed. *)
Definition meanSunAnglesOfDocument (xmldoc : list node)
  : result AngleConstantInfo :=
  let itemList := getElementsByTagName xmldoc "Mean_Sun_Angle" in
  item0 <- Np.index itemList 0 ;;
  let zenList := getElementsByTagName (childNodes_of item0) "ZENITH_ANGLE" in
  zen0 <- Np.index zenList 0 ;;
  zenData <- data_of (firstChild zen0) ;;
  zenith <- Float.py_float zenData ;;
  let aziList := getElementsByTagName (childNodes_of item0) "AZIMUTH_ANGLE" in
  azi0 <- Np.index aziList 0 ;;
  aziData <- data_of (firstChild azi0) ;;
  azimuth <- Float.py_float aziData ;;
  Ok (AngleConstant.init (PyFloat zenith) (PyFloat azimuth) (PyInt 0) (PyInt 0)).

Definition getMeanSunAngles `{Minidom} (xmlFile : string)
  : result AngleConstantInfo :=
  xmldoc <- minidom_parse xmlFile ;;
  meanSunAnglesOfDocument xmldoc.

End Sentinel2.

(** ** The specification's reading of the MTL reader *)

Module MTLSpec.

(** What a line contributes, as the code has it: the line has exactly one
    [=]; the key is the left part without surrounding whitespace; the value
    is the right part without any quote character and then without
    surrounding whitespace. *)
Definition line_entry (line key value : string) : Prop :=
  exists left right : string,
    line = left ++ String Str.equals right /\
    Str.count Str.equals left = O /\
    Str.count Str.equals right = O /\
    key = Str.strip left /\
    value = Str.strip (Str.replace Str.quote EmptyString right).

(** Trimming of whitespace and surrounding quote characters, as the
    specification words it for keys and values alike. *)
Definition trim_quotes (s : string) : string :=
  Str.strip_chars (fun c => Str.is_space c || Ascii.eqb c Str.quote) s.

Definition claimed_line_entry (line key value : string) : Prop :=
  exists left right : string,
    line = left ++ String Str.equals right /\
    Str.count Str.equals left = O /\
    Str.count Str.equals right = O /\
    key = trim_quotes left /\
    value = trim_quotes right.

(** The values under the two angle keys, where present, are numerals. *)
Definition numeric_at (mtl : gmap string string) (key : string) : Prop :=
  forall v, mtl !! key = Some v -> exists x, Float.py_float v = Ok x.

End MTLSpec.

(** A sequence of [setReflectiveBand] calls none of which gives a role the
    index another role holds at that moment. *)
Fixpoint calls_keep_indices_apart (b : gmap Z Z) (calls : list (Z * Z)) : Prop :=
  match calls with
  | [] => True
  | (band, index) :: rest =>
      (forall role, role <> band -> b !! role <> Some index) /\
      calls_keep_indices_apart (<[band := index]> b) rest
  end.

(** ** File names ([FmaskFilenames]) *)

Record FmaskFilenames : Type := mkFmaskFilenames {
  toaRef : option string;
  thermal : option string;
  saturationMask : option string;
  outputMask : option string
}.

Module Filenames.

(** The constructor takes the output mask before the saturation mask. *)
Definition init (toaRefFile thermalFile outputMask saturationMask
    : option string) : FmaskFilenames :=
  mkFmaskFilenames toaRefFile thermalFile saturationMask outputMask.

Definition setThermalFile (self : FmaskFilenames) (thermalFile : option string)
  : FmaskFilenames :=
  mkFmaskFilenames (toaRef self) thermalFile (saturationMask self)
    (outputMask self).

Definition setTOAReflectanceFile (self : FmaskFilenames)
    (toaRefFile : option string) : FmaskFilenames :=
  mkFmaskFilenames toaRefFile (thermal self) (saturationMask self)
    (outputMask self).

Definition setSaturationMask (self : FmaskFilenames) (mask : option string)
  : FmaskFilenames :=
  mkFmaskFilenames (toaRef self) (thermal self) mask (outputMask self).

Definition setOutputCloudMaskFile (self : FmaskFilenames)
    (cloudMask : option string) : FmaskFilenames :=
  mkFmaskFilenames (toaRef self) (thermal self) (saturationMask self) cloudMask.

End Filenames.

(** ** The command line program ([fmask_sentinel2Stacked.py]) *)

Module Sentinel2Main.

Import Sentinel2.

(** What [parser.parse_args()] hands back for the five options of the
    program: an option that was not given is [None], a flag [False]. *)
Record Options : Type := mkOptions {
  toa : option string;
  output : option string;
  xml : option string;
  opt_verbose : bool;
  opt_keepintermediates : bool
}.

(** How a run ends: it returns, an exception escapes, or [sys.exit] is
    called with a status. *)
Inductive outcome (A : Type) : Type :=
  | Returned (a : A)
  | Raised (e : exn)
  | Exited (status : Z).
Arguments Returned {A} a.
Arguments Raised {A} e.
Arguments Exited {A} status.

Definition of_result {A : Type} (r : result A) : outcome A :=
  match r with
  | Ok a => Returned a
  | Raise e => Raised e
  end.

Definition is_None {A : Type} (o : option A) : bool :=
  match o with None => true | Some _ => false end.

(** The part of [CmdArgs.__init__] that follows [parse_args], on the
    options it returned: without one of the three required options the
    help is printed and the program exits with status 1. ([CmdArgs_init]
    below is the whole constructor.) *)
Definition CmdArgs (options : Options) : outcome Options :=
  if is_None (output options) || is_None (toa options) || is_None (xml options)
  then Exited 1
  else Returned options.

(** [fmask.doFmask], the routine the program hands over to. *)
Class Fmask := { doFmask : FmaskFilenames -> FmaskConfig -> result unit }.

(** [CmdArgs] returns only with the three required options given, so the
    branch for a missing [xml] is never taken: the parser would be handed
    [None], which has no [read]. *)
Definition mainRoutine `{Minidom} `{Fmask} (gdal : Gdal) (options : Options)
  : outcome unit :=
  match CmdArgs options with
  | Exited status => Exited status
  | Raised e => Raised e
  | Returned cmdargs =>
      match xml cmdargs with
      | None => Raised AttributeError
      | Some xmlFile =>
          match getMeanSunAngles xmlFile with
          | Raise e => Raised e
          | Ok anglesInfo =>
              let fmaskFilenames := Filenames.init None None None None in
              let fmaskFilenames :=
                Filenames.setTOAReflectanceFile fmaskFilenames (toa cmdargs) in
              let fmaskFilenames :=
                Filenames.setOutputCloudMaskFile fmaskFilenames
                  (output cmdargs) in
              match Config.init gdal FMASK_SENTINEL2 with
              | Raise e => Raised e
              | Ok fmaskConfig =>
                  let fmaskConfig :=
                    Config.setAnglesInfo fmaskConfig
                      (Some (ConstantAngles anglesInfo)) in
                  let fmaskConfig :=
                    Config.setKeepIntermediates fmaskConfig
                      (opt_keepintermediates cmdargs) in
                  let fmaskConfig :=
                    Config.setVerbose fmaskConfig (opt_verbose cmdargs) in
                  of_result (doFmask fmaskFilenames fmaskConfig)
              end
          end
      end
  end.

(** [parser.parse_args()] of optparse on a command line: the options, or
    the exit optparse makes itself (status 0 after [-h], status 2 after an
    option it does not know or an option without its value). *)
Class Optparse := { parse_args : list string -> outcome Options }.

(** [CmdArgs.__init__] on a command line. *)
Definition CmdArgs_init `{Optparse} (argv : list string) : outcome Options :=
  match parse_args argv with
  | Returned options => CmdArgs options
  | Raised e => Raised e
  | Exited status => Exited status
  end.

(** The program run on a command line: [mainRoutine] with the parsing of
    the command line in front. *)
Definition program `{Optparse} `{Minidom} `{Fmask} (gdal : Gdal)
    (argv : list string) : outcome unit :=
  match parse_args argv with
  | Returned options => mainRoutine gdal options
  | Raised e => Raised e
  | Exited status => Exited status
  end.

End Sentinel2Main.

(** ** Shapes and joins, for stating properties *)

(** The shape of a two-dimensional array: the length of each row. *)
Definition shape {A : Type} (a : Np.array2 A) : list nat := map (@length A) a.

(** A result with a function applied to its value. *)
Definition result_map {A B : Type} (f : A -> B) (r : result A) : result B :=
  match r with
  | Ok a => Ok (f a)
  | Raise e => Raise e
  end.

(** [sep.join(pieces)]. *)
Fixpoint join (sep : string) (pieces : list string) : string :=
  match pieces with
  | [] => EmptyString
  | [piece] => piece
  | piece :: rest => piece ++ sep ++ join sep rest
  end.

(** The index [i] is within a sequence of length [n], by Python's rule
    for negative indices. *)
Definition in_range (n : nat) (i : Z) : Prop :=
  - Z.of_nat n <= i < Z.of_nat n.

(** A line as iterating over a file yields it: some characters other than
    the newline, and then the newline, which only the last line of the file
    may lack (and then it is not empty). *)
Definition well_formed_line (last : bool) (line : string) : Prop :=
  exists body : string,
    Str.count Str.newline body = O /\
    (line = body ++ String Str.newline EmptyString \/
     (last = true /\ line = body /\ body <> EmptyString)).

Fixpoint well_formed_lines (lines : list string) : Prop :=
  match lines with
  | [] => True
  | line :: rest =>
      well_formed_line (match rest with [] => true | _ => false end) line /\
      well_formed_lines rest
  end.

(** A text that can be followed by another without joining two lines: it
    is empty or ends with a newline. *)
Definition complete_text (text : string) : Prop :=
  text = EmptyString \/
  exists body, text = body ++ String Str.newline EmptyString.

(** A string that [strip] leaves as it is. *)
Definition stripped (s : string) : Prop := Str.strip s = s.

(** The three sensors the constructor knows. *)
Definition recognised (sensor : Z) : Prop :=
  sensor = FMASK_LANDSAT47 \/ sensor = FMASK_LANDSAT8 \/
  sensor = FMASK_SENTINEL2.

(** The element of a two-dimensional array at a row and a column, counted
    from zero. *)
Definition pixel {A : Type} (a : Np.array2 A) (r c : nat) : option A :=
  match a !! r with
  | Some row => row !! c
  | None => None
  end.

(** ** Sample inputs *)

Module Sample.

Definition quoted (s : string) : string :=
  String Str.quote (s ++ String Str.quote EmptyString).

Definition nl : string := String Str.newline EmptyString.

(** A small MTL text: the example of the specification, a line with two
    [=], a blank line, and a key that occurs twice. *)
Definition mtl_text : string :=
  "FOO = " ++ quoted "bar" ++ nl ++
  "A = B = C" ++ nl ++
  nl ++
  "FOO = " ++ quoted "baz" ++ nl.

Definition mtl_fs : filesystem := {[ "scene_MTL.txt" := mtl_text ]}.

(** A line whose key is written between quotes. *)
Definition quoted_key_line : string := quoted "KEY" ++ " = 1".

(** GDAL with the HFA driver RIOS uses by default, and no raster files. *)
Definition gdal_hfa : Gdal :=
  mkGdal ∅ {[ "HFA" := {[ "DMD_EXTENSION" := "img" ]} ]} "HFA".

(** The configurations the constructor gives with that driver. *)
Definition landsat47_config : FmaskConfig :=
  mkFmaskConfig FMASK_LANDSAT47
    (<[BAND_SWIR2 := 5]> (<[BAND_SWIR1 := 4]> (<[BAND_NIR := 3]>
    (<[BAND_RED := 2]> (<[BAND_GREEN := 1]> (<[BAND_BLUE := 0]> ∅))))))
    None None ".img" false 5 10 false false ".".

Definition landsat8_config : FmaskConfig :=
  mkFmaskConfig FMASK_LANDSAT8
    (<[BAND_CIRRUS := 7]> (<[BAND_SWIR2 := 6]> (<[BAND_SWIR1 := 5]>
    (<[BAND_NIR := 4]> (<[BAND_RED := 3]> (<[BAND_GREEN := 2]>
    (<[BAND_BLUE := 1]> ∅)))))))
    None None ".img" false 5 10 false false ".".

(** GDAL with one raster file of four angle bands, two pixels each, and an
    [AnglesFileInfo] that names one band of it for each angle. *)
Definition gdal_angles : Gdal :=
  mkGdal {[ "angles.img" := [ [[0.5; 0.75]]; [[2.5; 2.75]];
                              [[0.0; 0.125]]; [[1.5; 1.75]] ]%float ]}
         {[ "HFA" := {[ "DMD_EXTENSION" := "img" ]} ]} "HFA".

Definition angles_file_info : AnglesFileInfo :=
  AnglesFile.init "angles.img" 0 "angles.img" 1 "angles.img" 2 "angles.img" 3.

(** A Landsat 5 MTL file in the old layout: gain and offset of the thermal
    band, no K1 and K2 constants. *)
Definition tm_text : string :=
  "SPACECRAFT_ID = " ++ quoted "LANDSAT_5" ++ nl ++
  "SENSOR_ID = " ++ quoted "TM" ++ nl ++
  "RADIANCE_MULT_BAND_6 = 0.055" ++ nl ++
  "RADIANCE_ADD_BAND_6 = 1.18" ++ nl.

(** An MTL file with the sensor and without the spacecraft. *)
Definition sensor_only_text : string :=
  "SENSOR_ID = " ++ quoted "TM" ++ nl.

(** An MTL file with the sun angles of the specification's example, and
    one without the elevation. *)
Definition sun_text : string :=
  "SUN_AZIMUTH = 180.0" ++ nl ++ "SUN_ELEVATION = 45.0" ++ nl.

Definition azimuth_only_text : string := "SUN_AZIMUTH = 180.0" ++ nl.

Definition landsat_fs : filesystem :=
  {[ "LT5_MTL.txt" := tm_text;
     "sensor_only_MTL.txt" := sensor_only_text;
     "sun_MTL.txt" := sun_text;
     "azimuth_only_MTL.txt" := azimuth_only_text ]}.

(** The part of a Sentinel-2 granule document that holds the mean sun
    angle, in degrees. *)
Definition granule : list Sentinel2.node :=
  [Sentinel2.Element "n1:Level-1C_Tile_ID"
     [Sentinel2.Element "n1:Geometric_Info"
        [Sentinel2.Element "Tile_Angles"
           [Sentinel2.Element "Mean_Sun_Angle"
              [Sentinel2.Element "ZENITH_ANGLE" [Sentinel2.Text "30.0"];
               Sentinel2.Element "AZIMUTH_ANGLE" [Sentinel2.Text "150.0"]]]]]].

Definition minidom : Sentinel2.Minidom :=
  {| Sentinel2.minidom_parse := fun xmlFile =>
       if String.eqb xmlFile "granule.xml" then Ok granule else Raise IOError |}.

(** Thermal parameters under which the digital numbers 3 and 5 have a
    negative and a zero radiance. *)
Definition thermal_info : ThermalFileInfo :=
  mkThermalFileInfo 0 1.0 (-5.0) 607.76 1260.56.

(** The Landsat 8 file of the specification's scenario, with and without
    the line that names the sensor, and a file of a spacecraft the table
    does not have. *)
Definition oli_lines : string :=
  "SPACECRAFT_ID = " ++ quoted "LANDSAT_8" ++ nl ++
  "RADIANCE_MULT_BAND_10 = 0.0003" ++ nl ++
  "RADIANCE_ADD_BAND_10 = 0.1" ++ nl ++
  "K1_CONSTANT_BAND_10 = 774.89" ++ nl ++
  "K2_CONSTANT_BAND_10 = 1321.08" ++ nl.

Definition oli_text : string :=
  oli_lines ++ "SENSOR_ID = " ++ quoted "OLI_TIRS" ++ nl.

Definition landsat9_text : string :=
  "SPACECRAFT_ID = " ++ quoted "LANDSAT_9" ++ nl.

Definition no_gain_text : string :=
  "SPACECRAFT_ID = " ++ quoted "LANDSAT_8" ++ nl.

Definition thermal_fs : filesystem :=
  {[ "LC8_MTL.txt" := oli_text;
     "LC8_no_sensor_MTL.txt" := oli_lines;
     "LC9_MTL.txt" := landsat9_text;
     "no_gain_MTL.txt" := no_gain_text ]}.

(** An instance of the numpy functions to run the model with: the
    logarithm by halving the range and summing the series of the inverse
    hyperbolic tangent (close to the library's, not rounded like it), the
    mean by summing from left to right. *)
Fixpoint atanh_series (t t2 : float) (k : nat) (n : Z) : float :=
  match k with
  | O => 0%float
  | S k' => (t / Float.of_Z n + atanh_series (t * t2) t2 k' (n + 2))%float
  end.

Definition log (x : float) : float :=
  if (x <=? 0)%float then
    (if (x =? 0)%float then neg_infinity else nan)
  else
    let '(m, e) := FloatOps.Z.frexp x in
    let t := ((m - 1) / (m + 1))%float in
    (2 * atanh_series t (t * t) 40 1 + Float.of_Z e * 0.6931471805599453)%float.

Definition mean (l : list float) : float :=
  (fold_left PrimFloat.add l 0 / Float.of_Z (Z.of_nat (length l)))%float.

Definition numpy : Numpy := {| np_log := log; np_mean := mean |}.

(** A one-band stack of two rows whose first row has a negative and a zero
    radiance under [thermal_info]. *)
Definition thermal_stack : list (Np.array2 Z) := [ [[3; 5]; [7; 9]] ].

(** A masking routine that accepts whatever it is handed. *)
Definition fmask : Sentinel2Main.Fmask :=
  {| Sentinel2Main.doFmask := fun _ _ => Ok tt |}.

Definition options : Sentinel2Main.Options :=
  Sentinel2Main.mkOptions (Some "toa.img") (Some "cloud.img")
    (Some "granule.xml") true false.

Definition options_without_output : Sentinel2Main.Options :=
  Sentinel2Main.mkOptions (Some "toa.img") None (Some "granule.xml")
    false false.

(** What the constructor gives for Sentinel-2 with the HFA driver. *)
Definition sentinel2_config : FmaskConfig :=
  mkFmaskConfig FMASK_SENTINEL2
    (<[BAND_CIRRUS := 9]> (<[BAND_SWIR2 := 11]> (<[BAND_SWIR1 := 10]>
    (<[BAND_NIR := 6]> (<[BAND_RED := 3]> (<[BAND_GREEN := 2]>
    (<[BAND_BLUE := 1]> ∅)))))))
    None None ".img" false 5 10 false false ".".

(** A second [Mean_Sun_Angle] element, to follow the granule document. *)
Definition second_angle : list Sentinel2.node :=
  [Sentinel2.Element "Mean_Sun_Angle"
     [Sentinel2.Element "ZENITH_ANGLE" [Sentinel2.Text "60.0"];
      Sentinel2.Element "AZIMUTH_ANGLE" [Sentinel2.Text "10.0"]]].

(** An MTL file whose azimuth is a word, and which has no elevation. *)
Definition north_text : string := "SUN_AZIMUTH = north" ++ nl.

Definition north_fs : filesystem := {[ "north_MTL.txt" := north_text ]}.

(** The root element of the granule document and what it holds. *)
Definition granule_root : string := "n1:Level-1C_Tile_ID".

Definition granule_body : list Sentinel2.node :=
  [Sentinel2.Element "n1:Geometric_Info"
     [Sentinel2.Element "Tile_Angles"
        [Sentinel2.Element "Mean_Sun_Angle"
           [Sentinel2.Element "ZENITH_ANGLE" [Sentinel2.Text "30.0"];
            Sentinel2.Element "AZIMUTH_ANGLE" [Sentinel2.Text "150.0"]]]]].

(** What optparse makes of four command lines: the three required options
    and [-v]; the output missing; [-h]; anything else, taken here as a
    command line it refuses. *)
Definition optparse : Sentinel2Main.Optparse :=
  {| Sentinel2Main.parse_args := fun argv =>
       if decide (argv = ["-a"; "toa.img"; "-o"; "cloud.img";
                          "-x"; "granule.xml"; "-v"])
       then Sentinel2Main.Returned options
       else if decide (argv = ["-a"; "toa.img"; "-x"; "granule.xml"])
       then Sentinel2Main.Returned options_without_output
       else if decide (argv = ["-h"])
       then Sentinel2Main.Exited 0
       else Sentinel2Main.Exited 2 |}.

End Sample.

(** * Properties *)

(** ** Basic facts *)

Section BasicFacts.

Lemma contains_Some {V : Type} (d : gmap string V) (k : string) (v : V) :
  d !! k = Some v -> contains d k = true /\ getitem d k = Ok v.
Proof. intros H. unfold contains, getitem. now rewrite H. Qed.

Lemma contains_None {V : Type} (d : gmap string V) (k : string) :
  d !! k = None -> contains d k = false.
Proof. intros H. unfold contains. now rewrite H. Qed.

Lemma float_item_Some (d : gmap string string) (k v : string) (x : float) :
  d !! k = Some v -> Float.py_float v = Ok x -> float_item d k = Ok x.
Proof.
  intros Hk Hv. unfold float_item.
  destruct (contains_Some d k v Hk) as [_ ->]. exact Hv.
Qed.

Lemma index_head {A : Type} (x : A) (l : list A) : Np.index (x :: l) 0 = Ok x.
Proof.
  unfold Np.index. simpl Z.ltb. cbv iota.
  destruct (Z.ltb_spec 0 (Z.of_nat (length (x :: l)))) as [_|Hle];
    [reflexivity|].
  simpl length in Hle. lia.
Qed.

Lemma index_nil {A : Type} (i : Z) : Np.index (@nil A) i = Raise IndexError.
Proof.
  unfold Np.index. simpl length. change (Z.of_nat 0) with 0.
  assert (forall j, (0 <=? j) && (j <? 0) = false) as ->; [|reflexivity].
  intros j. destruct (Z.leb_spec 0 j), (Z.ltb_spec j 0); simpl; auto; lia.
Qed.

Lemma float_neq (x y : float) :
  (x =? x)%float = true -> (x =? y)%float = false -> x <> y.
Proof. intros Hx Hxy ->. rewrite Hx in Hxy. discriminate. Qed.

(** Two binary64 numbers that the comparison tells apart are different
    values. *)
Lemma PyFloat_neq (x y : float) :
  (x =? x)%float = true -> (x =? y)%float = false -> PyFloat x <> PyFloat y.
Proof. intros Hx Hxy [= ->]. rewrite Hx in Hxy. discriminate. Qed.

End BasicFacts.

(** ** Splitting and the MTL reader *)

Section SplitFacts.

Variable sep : ascii.

Lemma split_not_nil (s : string) : Str.split sep s <> [].
Proof.
  destruct s as [|c s]; simpl; [discriminate|].
  destruct (Ascii.eqb c sep); [discriminate|].
  destruct (Str.split sep s); discriminate.
Qed.

Lemma split_length (s : string) :
  length (Str.split sep s) = S (Str.count sep s).
Proof.
  induction s as [|c s IH]; simpl; [reflexivity|].
  destruct (Ascii.eqb c sep); simpl; [now rewrite IH|].
  destruct (Str.split sep s) as [|h t] eqn:E.
  - now destruct (split_not_nil s).
  - simpl in *. exact IH.
Qed.

(** A string without the separator is its own single piece. *)
Lemma split_one (s piece : string) :
  Str.split sep s = [piece] <-> piece = s /\ Str.count sep s = O.
Proof.
  revert piece. induction s as [|c s IH]; intros piece; simpl.
  - split; [intros [= <-]; auto | intros [-> _]; reflexivity].
  - destruct (Ascii.eqb c sep) eqn:Hc.
    + split; [intros [= _ H]; now destruct (split_not_nil s) | intros [_ [=]]].
    + destruct (Str.split sep s) as [|h t] eqn:E;
        [now destruct (split_not_nil s)|].
      split.
      * intros [= <- ->]. destruct (IH h) as [[-> Hn] _]; auto.
      * intros [-> Hn]. destruct (IH s) as [_ H]. specialize (H (conj eq_refl Hn)).
        now injection H as -> ->.
Qed.

(** Two pieces: exactly one separator, between them. *)
Lemma split_two (s left right : string) :
  Str.split sep s = [left; right] <->
  s = left ++ String sep right /\
  Str.count sep left = O /\ Str.count sep right = O.
Proof.
  revert left. induction s as [|c s IH]; intros left; simpl.
  - split; [discriminate|]. intros [H _]. now destruct left.
  - destruct (Ascii.eqb c sep) eqn:Hc.
    + apply Ascii.eqb_eq in Hc as ->. split.
      * intros [= <- H]. apply split_one in H as [-> Hn]. auto.
      * intros (H & Hl & Hr). destruct left as [|d left]; simpl in *.
        -- injection H as ->. f_equal. apply split_one; auto.
        -- injection H as <- _. now rewrite Ascii.eqb_refl in Hl.
    + destruct (Str.split sep s) as [|h t] eqn:E;
        [now destruct (split_not_nil s)|].
      split.
      * intros [= <- ->]. destruct (IH h) as [(-> & Hl & Hr) _]; [reflexivity|].
        simpl. rewrite Hc. auto.
      * intros (H & Hl & Hr). destruct left as [|d left]; simpl in *.
        -- injection H as -> _. now rewrite Ascii.eqb_refl in Hc.
        -- injection H as <- ->. rewrite Hc in Hl.
           destruct (IH left) as [_ H']. specialize (H' (conj eq_refl (conj Hl Hr))).
           now injection H' as -> ->.
Qed.

End SplitFacts.

Section MTLReader.

Import MTLSpec.

Lemma readMTLLines_snoc (lines : list string) (line : string) :
  readMTLLines (lines ++ [line])%list = readMTLLine (readMTLLines lines) line.
Proof. unfold readMTLLines. apply foldl_snoc. Qed.

(** A line with an entry updates the dictionary with exactly that entry. *)
Lemma readMTLLine_entry (dict : gmap string string) (line key value : string) :
  line_entry line key value -> readMTLLine dict line = <[key := value]> dict.
Proof.
  intros (left & right & Hline & Hl & Hr & -> & ->).
  unfold readMTLLine.
  assert (Str.split Str.equals line = [left; right]) as ->
    by (apply split_two; auto).
  reflexivity.
Qed.

(** A line contributes at most one entry. *)
Lemma line_entry_functional (line k1 v1 k2 v2 : string) :
  line_entry line k1 v1 -> line_entry line k2 v2 -> k1 = k2 /\ v1 = v2.
Proof.
  intros (l1 & r1 & H1 & Hl1 & Hr1 & -> & ->)
         (l2 & r2 & H2 & Hl2 & Hr2 & -> & ->).
  assert (Str.split Str.equals line = [l1; r1]) as E1 by (apply split_two; auto).
  assert (Str.split Str.equals line = [l2; r2]) as E2 by (apply split_two; auto).
  rewrite E1 in E2. now injection E2 as -> ->.
Qed.

(** A line without an entry leaves the dictionary alone. *)
Lemma readMTLLine_no_entry (dict : gmap string string) (line : string) :
  (forall key value, ~ line_entry line key value) ->
  readMTLLine dict line = dict.
Proof.
  intros Hno. unfold readMTLLine.
  destruct (Str.split Str.equals line) as [|left [|right [|x rest]]] eqn:E;
    try reflexivity.
  apply split_two in E as (Hline & Hl & Hr).
  exfalso. eapply Hno. exists left, right. eauto.
Qed.

Lemma line_entry_count (line key value : string) :
  line_entry line key value -> Str.count Str.equals line = 1%nat.
Proof.
  intros (left & right & Hline & Hl & Hr & _).
  assert (Str.split Str.equals line = [left; right]) as E
    by (apply split_two; auto).
  pose proof (split_length Str.equals line) as Hlen.
  rewrite E in Hlen. simpl in Hlen. lia.
Qed.

Lemma count_one_line_entry (line : string) :
  Str.count Str.equals line = 1%nat ->
  exists key value, line_entry line key value.
Proof.
  intros Hc. pose proof (split_length Str.equals line) as Hlen.
  rewrite Hc in Hlen.
  destruct (Str.split Str.equals line) as [|left [|right [|x rest]]] eqn:E;
    try discriminate.
  apply split_two in E as (Hline & Hl & Hr).
  eexists _, _. exists left, right. eauto.
Qed.

Lemma line_entry_dec (line : string) :
  (exists key value, line_entry line key value) \/
  (forall key value, ~ line_entry line key value).
Proof.
  destruct (Nat.eq_dec (Str.count Str.equals line) 1%nat) as [H|H].
  - left. now apply count_one_line_entry.
  - right. intros key value Hent. apply H. eapply line_entry_count; eauto.
Qed.

(** The dictionary holds, for each key, the entry of the last line that
    has an entry under that key. *)
Lemma readMTLLines_lookup (lines : list string) (key value : string) :
  readMTLLines lines !! key = Some value <->
  exists (pre : list string) (line : string) (post : list string),
    lines = (pre ++ line :: post)%list /\
    line_entry line key value /\
    (forall later v, later ∈ post -> ~ line_entry later key v).
Proof.
  induction lines as [|last lines IH] using rev_ind.
  - split; [discriminate|]. intros (pre & line & post & H & _).
    now destruct pre.
  - rewrite readMTLLines_snoc.
    destruct (line_entry_dec last) as [(k0 & v0 & Hent)|Hno].
    + rewrite (readMTLLine_entry _ _ _ _ Hent).
      destruct (decide (k0 = key)) as [->|Hne].
      * rewrite lookup_insert_eq. split.
        -- intros [= ->]. exists lines, last, []. split; [reflexivity|].
           split; [assumption|]. intros later v Hin. inversion Hin.
        -- intros (pre & line & post & H & Hline & Hpost).
           destruct post as [|p post _] using rev_ind.
           ++ apply app_inj_tail in H as [_ <-].
              now destruct (line_entry_functional _ _ _ _ _ Hent Hline) as [_ ->].
           ++ rewrite app_comm_cons, app_assoc in H.
              apply app_inj_tail in H as [_ <-].
              exfalso. eapply (Hpost last v0); [|exact Hent].
              apply elem_of_app. right. apply list_elem_of_singleton. reflexivity.
      * rewrite lookup_insert_ne by assumption. rewrite IH. split.
        -- intros (pre & line & post & -> & Hline & Hpost).
           exists pre, line, (post ++ [last])%list. split; [now rewrite <- app_assoc|].
           split; [assumption|]. intros later v Hin.
           apply elem_of_app in Hin as [Hin|Hin]; [now apply Hpost|].
           apply list_elem_of_singleton in Hin as ->. intros Hl.
           apply Hne. now destruct (line_entry_functional _ _ _ _ _ Hent Hl).
        -- intros (pre & line & post & H & Hline & Hpost).
           destruct post as [|p post _] using rev_ind.
           ++ apply app_inj_tail in H as [_ <-].
              exfalso. apply Hne.
              now destruct (line_entry_functional _ _ _ _ _ Hent Hline).
           ++ rewrite app_comm_cons, app_assoc in H.
              apply app_inj_tail in H as [-> <-].
              exists pre, line, post. split; [reflexivity|].
              split; [assumption|]. intros later v Hin. apply Hpost.
              apply elem_of_app. now left.
    + rewrite (readMTLLine_no_entry _ _ Hno). rewrite IH. split.
      * intros (pre & line & post & -> & Hline & Hpost).
        exists pre, line, (post ++ [last])%list. split; [now rewrite <- app_assoc|].
        split; [assumption|]. intros later v Hin.
        apply elem_of_app in Hin as [Hin|Hin]; [now apply Hpost|].
        apply list_elem_of_singleton in Hin as ->. apply Hno.
      * intros (pre & line & post & H & Hline & Hpost).
        destruct post as [|p post _] using rev_ind.
        -- apply app_inj_tail in H as [_ <-]. now destruct (Hno key value).
        -- rewrite app_comm_cons, app_assoc in H.
           apply app_inj_tail in H as [-> <-].
           exists pre, line, post. split; [reflexivity|].
           split; [assumption|]. intros later v Hin. apply Hpost.
           apply elem_of_app. now left.
Qed.

End MTLReader.


(** *** Claim C5 *)

Section ClaimC5.

Import MTLSpec.

(** C5 (as the code has it). Reading a file that opens gives a dictionary
    in which a key is bound to a value exactly when some line of the file
    has exactly one [=], the key is its left part without surrounding
    whitespace (quote characters stay), the value is its right part with
    every quote character removed and then without surrounding whitespace,
    and no later line has an entry under the same key. Lines with no [=] or
    with two or more have no entry: the lines with an entry are those with
    exactly one [=]. *)
Theorem readMTLFile_entries (fs : filesystem) (mtl text : string) :
  fs !! mtl = Some text ->
  exists dict : gmap string string,
    readMTLFile fs mtl = Ok dict /\
    (forall key value : string,
       dict !! key = Some value <->
       exists (pre : list string) (line : string) (post : list string),
         Str.file_lines text = (pre ++ line :: post)%list /\
         line_entry line key value /\
         (forall later v, later ∈ post -> ~ line_entry later key v)) /\
    (forall line : string,
       Str.count Str.equals line = 1%nat <->
       exists key value, line_entry line key value).
Proof.
  intros Hopen. exists (readMTLLines (Str.file_lines text)).
  split; [|split].
  - unfold readMTLFile, open. now rewrite Hopen.
  - intros key value. apply readMTLLines_lookup.
  - intros line. split; [apply count_one_line_entry|].
    intros (key & value & H). eapply line_entry_count; eauto.
Qed.

Lemma readMTLFile_entries_witness :
  exists dict : gmap string string,
    readMTLFile Sample.mtl_fs "scene_MTL.txt" = Ok dict /\
    (forall key value : string,
       dict !! key = Some value <->
       exists (pre : list string) (line : string) (post : list string),
         Str.file_lines Sample.mtl_text = (pre ++ line :: post)%list /\
         line_entry line key value /\
         (forall later v, later ∈ post -> ~ line_entry later key v)) /\
    (forall line : string,
       Str.count Str.equals line = 1%nat <->
       exists key value, line_entry line key value).
Proof.
  apply (readMTLFile_entries Sample.mtl_fs "scene_MTL.txt" Sample.mtl_text).
  reflexivity.
Defined.

(** The sample file: the example of the specification ([FOO] bound to
    [bar]) is overwritten by the later line; the other lines leave nothing. *)
Example readMTLFile_sample :
  readMTLFile Sample.mtl_fs "scene_MTL.txt" = Ok {[ "FOO" := "baz" ]}.
Proof. vm_compute. reflexivity. Qed.

(** The line ["KEY" = 1], whose key is written between quotes: the
    specification's trimming gives the key [KEY], the dictionary has the
    key with its quotes. *)
Lemma quoted_key_line_entries :
  claimed_line_entry Sample.quoted_key_line "KEY" "1" /\
  readMTLLines [Sample.quoted_key_line] !! "KEY" = None /\
  readMTLLines [Sample.quoted_key_line] !! Sample.quoted "KEY" = Some "1".
Proof.
  split; [|split; vm_compute; reflexivity].
  exists (Sample.quoted "KEY" ++ " "), " 1".
  repeat split; vm_compute; reflexivity.
Qed.

(** C5 as stated fails: it is not so that every line with exactly one [=]
    leaves an entry whose key and value are the two parts trimmed of
    whitespace and surrounding quote characters. *)
Lemma readMTLFile_claimed_entry_fails :
  ~ (forall line key value : string,
       claimed_line_entry line key value ->
       readMTLLines [line] !! key = Some value).
Proof.
  intros Hclaim.
  destruct quoted_key_line_entries as (Hentry & Hnone & _).
  specialize (Hclaim _ _ _ Hentry). rewrite Hnone in Hclaim. discriminate.
Qed.

End ClaimC5.

(** *** Claim C8 *)

Section ClaimC8.

Lemma default_bands_unique (sensor : Z) (b : gmap Z Z) :
  Config.default_bands sensor = Ok b -> Config.indices_unique b.
Proof.
  unfold Config.default_bands, FMASK_LANDSAT47, FMASK_LANDSAT8,
    FMASK_SENTINEL2, BAND_BLUE, BAND_GREEN, BAND_RED, BAND_NIR, BAND_CIRRUS,
    BAND_SWIR1, BAND_SWIR2.
  intros H role1 role2 index H1 H2.
  destruct (sensor =? 0); [|destruct (sensor =? 1); [|destruct (sensor =? 2)]];
    try discriminate; injection H as <-;
    rewrite !lookup_insert_Some, lookup_empty in H1, H2;
    intuition (try discriminate; lia).
Qed.

Lemma default_bands_no_cirrus (b : gmap Z Z) :
  Config.default_bands FMASK_LANDSAT47 = Ok b -> b !! BAND_CIRRUS = None.
Proof. intros [= <-]. reflexivity. Qed.

Lemma init_bands (gdal : Gdal) (sensor : Z) (cfg : FmaskConfig) :
  Config.init gdal sensor = Ok cfg ->
  Config.default_bands sensor = Ok (bands cfg).
Proof.
  unfold Config.init. destruct (Config.default_bands sensor) as [b|e]; simpl;
    [|discriminate].
  destruct (gdal_drivers gdal !! DEFAULTDRIVERNAME gdal); [|discriminate].
  now intros [= <-].
Qed.

Lemma bands_setReflectiveBand (cfg : FmaskConfig) (band index : Z) :
  bands (Config.setReflectiveBand cfg band index) = <[band := index]> (bands cfg).
Proof. now destruct cfg. Qed.

(** An overwritten role keeps the indices apart when no other role holds
    the new index. *)
Lemma insert_keeps_unique (b : gmap Z Z) (band index : Z) :
  Config.indices_unique b ->
  (forall role, role <> band -> b !! role <> Some index) ->
  Config.indices_unique (<[band := index]> b).
Proof.
  intros Hu Hfresh role1 role2 i.
  rewrite !lookup_insert.
  repeat case_decide; subst; intros H1 H2; try congruence.
  - injection H1 as <-. now destruct (Hfresh role2).
  - injection H2 as <-. now destruct (Hfresh role1).
  - eapply Hu; eauto.
Qed.

Lemma setReflectiveBands_unique (calls : list (Z * Z)) (cfg : FmaskConfig) :
  Config.indices_unique (bands cfg) ->
  calls_keep_indices_apart (bands cfg) calls ->
  Config.indices_unique (bands (Config.setReflectiveBands cfg calls)).
Proof.
  revert cfg. induction calls as [|[band index] calls IH]; intros cfg Hu Hc.
  - exact Hu.
  - destruct Hc as [Hfresh Hrest]. unfold Config.setReflectiveBands. simpl.
    apply IH; rewrite bands_setReflectiveBand; [|exact Hrest].
    now apply insert_keeps_unique.
Qed.

Lemma setReflectiveBands_other_role (role : Z) (calls : list (Z * Z))
    (cfg : FmaskConfig) :
  (forall call, call ∈ calls -> call.1 <> role) ->
  bands (Config.setReflectiveBands cfg calls) !! role = bands cfg !! role.
Proof.
  revert cfg. induction calls as [|[band index] calls IH]; intros cfg Hc.
  - reflexivity.
  - unfold Config.setReflectiveBands. simpl.
    etransitivity; [apply IH|].
    + intros call Hin. apply Hc. now right.
    + rewrite bands_setReflectiveBand. apply lookup_insert_ne.
      apply (Hc (band, index)). now left.
Qed.

(** C8 (as the code has it). A configuration constructed for one of the
    three sensors gives each role a file index of its own, and for Landsat
    4-7 it has no Cirrus entry. [setReflectiveBand] overwrites one entry
    without any check: after a sequence of calls the indices are still
    distinct when no call gives a role the index another role holds at that
    moment, and the Landsat 4-7 layout is still without Cirrus when no call
    names the Cirrus role. *)
Theorem bands_invariant (gdal : Gdal) (sensor : Z) (cfg : FmaskConfig) :
  Config.init gdal sensor = Ok cfg ->
  Config.indices_unique (bands cfg) /\
  (sensor = FMASK_LANDSAT47 -> bands cfg !! BAND_CIRRUS = None) /\
  (forall calls : list (Z * Z),
     (calls_keep_indices_apart (bands cfg) calls ->
      Config.indices_unique (bands (Config.setReflectiveBands cfg calls))) /\
     (sensor = FMASK_LANDSAT47 ->
      (forall call, call ∈ calls -> call.1 <> BAND_CIRRUS) ->
      bands (Config.setReflectiveBands cfg calls) !! BAND_CIRRUS = None)).
Proof.
  intros Hinit. apply init_bands in Hinit.
  pose proof (default_bands_unique _ _ Hinit) as Hu.
  split; [exact Hu|]. split.
  - intros ->. now apply default_bands_no_cirrus.
  - intros calls. split.
    + now apply setReflectiveBands_unique.
    + intros -> Hc. rewrite setReflectiveBands_other_role by exact Hc.
      now apply default_bands_no_cirrus.
Qed.

Example init_landsat47 :
  Config.init Sample.gdal_hfa FMASK_LANDSAT47 = Ok Sample.landsat47_config.
Proof. reflexivity. Qed.

Lemma bands_invariant_witness :
  Config.init Sample.gdal_hfa FMASK_LANDSAT8 = Ok Sample.landsat8_config /\
  Config.indices_unique
    (bands (Config.setReflectiveBands Sample.landsat8_config
              [(BAND_CIRRUS, 8); (BAND_BLUE, 0)])).
Proof.
  split; [reflexivity|].
  apply (bands_invariant Sample.gdal_hfa FMASK_LANDSAT8 Sample.landsat8_config
           eq_refl).
  simpl. repeat split; intros role Hrole;
    unfold BAND_BLUE, BAND_GREEN, BAND_RED, BAND_NIR, BAND_CIRRUS, BAND_SWIR1,
      BAND_SWIR2 in *;
    rewrite !lookup_insert_Some, lookup_empty; intuition (try discriminate; lia).
Defined.

(** C8 as stated fails: after [setReflectiveBand(BAND_GREEN, 0)] on a
    Landsat 4-7 configuration the roles Blue and Green share the index 0. *)
Lemma setReflectiveBand_can_share_index :
  ~ (forall (gdal : Gdal) (sensor : Z) (cfg : FmaskConfig)
            (calls : list (Z * Z)),
       Config.init gdal sensor = Ok cfg ->
       Config.indices_unique (bands (Config.setReflectiveBands cfg calls)) /\
       (sensor = FMASK_LANDSAT47 ->
        bands (Config.setReflectiveBands cfg calls) !! BAND_CIRRUS = None)).
Proof.
  intros Hclaim.
  destruct (Hclaim Sample.gdal_hfa FMASK_LANDSAT47 Sample.landsat47_config
              [(BAND_GREEN, 0)] eq_refl) as [Hu _].
  specialize (Hu BAND_BLUE BAND_GREEN 0 eq_refl eq_refl). discriminate Hu.
Qed.

(** A call that names the Cirrus role adds the entry to a Landsat 4-7
    configuration. *)
Example setReflectiveBand_adds_cirrus :
  bands (Config.setReflectiveBand Sample.landsat47_config BAND_CIRRUS 6)
    !! BAND_CIRRUS = Some 6.
Proof. reflexivity. Qed.

End ClaimC8.

(** ** Angle providers *)

(** *** Claim C10 *)

(** C10. An [AngleConstantInfo] made from four angles answers each of the
    four queries with the corresponding constructor argument, whatever the
    region, the empty region included; two regions give the same answer. *)
Theorem AngleConstantInfo_queries_constant
    (sz sa vz va : pyval) (region other : Np.indices) :
  let self := AngleConstant.init sz sa vz va in
  (getSolarZenithAngle self region = Ok sz /\
   getSolarAzimuthAngle self region = Ok sa /\
   getViewZenithAngle self region = Ok vz /\
   getViewAzimuthAngle self region = Ok va) /\
  (getSolarZenithAngle self [] = Ok sz /\
   getSolarAzimuthAngle self [] = Ok sa /\
   getViewZenithAngle self [] = Ok vz /\
   getViewAzimuthAngle self [] = Ok va) /\
  (getSolarZenithAngle self region = getSolarZenithAngle self other /\
   getSolarAzimuthAngle self region = getSolarAzimuthAngle self other /\
   getViewZenithAngle self region = getViewZenithAngle self other /\
   getViewAzimuthAngle self region = getViewAzimuthAngle self other).
Proof. cbv zeta. repeat split. Qed.

(** Preparing and releasing do nothing on a constant provider. *)
Lemma AngleConstantInfo_prepare_release (gdal : Gdal) (self : AngleConstantInfo) :
  prepareForQuerying gdal self = (self, Ok tt) /\
  releaseMemory self = (self, Ok tt).
Proof. split; reflexivity. Qed.

(** *** Claim C6 *)

Section ClaimC6.

Context `{Numpy}.

Lemma mean_over_None (region : Np.indices) :
  AnglesFile.mean_over IsNone region = Raise TypeError.
Proof. reflexivity. Qed.

(** C6 (as the code has it). On an [AnglesFileInfo] as the constructor
    leaves it (the four buffers are [None]), each of the four queries
    raises, for every region, and returns no angle. What is raised is the
    built-in [TypeError] of the subscript on [None]: the code has no check
    of the state of its own, and the error is not one of the package. *)
Theorem AnglesFileInfo_query_before_prepare
    (szFile : string) (szBand : Z) (saFile : string) (saBand : Z)
    (vzFile : string) (vzBand : Z) (vaFile : string) (vaBand : Z)
    (region : Np.indices) :
  let self :=
    AnglesFile.init szFile szBand saFile saBand vzFile vzBand vaFile vaBand in
  getSolarZenithAngle self region = Raise TypeError /\
  getSolarAzimuthAngle self region = Raise TypeError /\
  getViewZenithAngle self region = Raise TypeError /\
  getViewAzimuthAngle self region = Raise TypeError /\
  in_taxonomy TypeError = false.
Proof. cbv zeta. repeat split; apply mean_over_None. Qed.

(** Once the buffers hold data a query succeeds, on a region inside the
    raster, with the mean of the selected pixels. *)
Lemma AnglesFileInfo_query_with_data (self : AnglesFileInfo)
    (a : Np.array2 float) (region : Np.indices) (selected : list float) :
  solarZenithData self = Data a ->
  Np.take a region = Ok selected ->
  getSolarZenithAngle self region = Ok (PyFloat (np_mean selected)).
Proof.
  intros Hdata Htake. simpl. unfold AnglesFile.getSolarZenithAngle.
  rewrite Hdata. simpl. now rewrite Htake.
Qed.

End ClaimC6.

(** C6 as stated fails: it is not so that every query on an object whose
    buffers are unset ends with an error defined for that state, one of
    the errors of the package. *)
Lemma AnglesFileInfo_no_defined_state_error :
  ~ (forall (numpy : Numpy)
            (szFile : string) (szBand : Z) (saFile : string) (saBand : Z)
            (vzFile : string) (vzBand : Z) (vaFile : string) (vaBand : Z)
            (region : Np.indices),
       exists e : exn,
         getSolarZenithAngle
           (AnglesFile.init szFile szBand saFile saBand
              vzFile vzBand vaFile vaBand) region = Raise e /\
         in_taxonomy e = true).
Proof.
  intros Hclaim.
  destruct (Hclaim Sample.numpy "angles.img" 0 "angles.img" 1
              "angles.img" 2 "angles.img" 3 []) as (e & Hraise & Htax).
  injection Hraise as <-. discriminate Htax.
Qed.

(** *** Claim C1 *)

Section ClaimC1.

(** The second argument of [readData] as [prepareForQuerying] passes it, a
    string: the file opens or not, and no band is read either way. *)
Lemma readData_string_band (gdal : Gdal) (filename band : string) :
  AnglesFile.readData gdal (PyStr filename) (PyStr band) =
  match gdal_datasets gdal !! filename with
  | Some _ => Raise TypeError
  | None => Raise AttributeError
  end.
Proof.
  unfold AnglesFile.readData. simpl.
  destruct (gdal_datasets gdal !! filename); reflexivity.
Qed.

(** With the band number of the object, the band is read: number [n]
    (counted from zero) of a file that opens and has that band. *)
Lemma readData_band (gdal : Gdal) (filename : string) (n : nat)
    (ds : list (Np.array2 float)) (band : Np.array2 float) :
  gdal_datasets gdal !! filename = Some ds ->
  ds !! n = Some band ->
  AnglesFile.readData gdal (PyStr filename) (PyInt (Z.of_nat n)) = Ok band.
Proof.
  intros Hds Hband. unfold AnglesFile.readData. simpl. rewrite Hds. simpl.
  pose proof (lookup_lt_Some _ _ _ Hband) as Hlt.
  destruct (Z.leb_spec 1 (Z.of_nat n + 1)); [|lia].
  destruct (Z.leb_spec (Z.of_nat n + 1) (Z.of_nat (length ds))); [|lia].
  simpl. replace (Z.to_nat (Z.of_nat n + 1 - 1)) with n by lia.
  assert (nth_error ds n = Some band) as ->; [|reflexivity].
  clear -Hband. revert n Hband.
  induction ds as [|d ds IH]; intros [|n]; simpl; auto; discriminate.
Qed.

(** C1 (what the code does). [prepareForQuerying] stops at its first read,
    for every object and every state of the files: the band number it hands
    to [readData] is the file name, so the read raises ([TypeError] when
    the file opens, [AttributeError] when it does not) and the object is
    left with the buffers it had. No band is read into memory. *)
Theorem prepareForQuerying_reads_no_band (gdal : Gdal) (self : AnglesFileInfo) :
  AnglesFile.prepareForQuerying gdal self = (self, Raise TypeError) \/
  AnglesFile.prepareForQuerying gdal self = (self, Raise AttributeError).
Proof.
  unfold AnglesFile.prepareForQuerying, AnglesFile.assign.
  rewrite readData_string_band.
  destruct (gdal_datasets gdal !! solarZenithFilename self); auto.
Qed.

(** The sample object on the sample file: the four bands are there to be
    read, and preparing raises a [TypeError]; the queries that follow find
    the buffers unset. *)
Example prepareForQuerying_sample :
  AnglesFile.readData Sample.gdal_angles (PyStr "angles.img")
    (PyInt (solarZenithBand Sample.angles_file_info)) = Ok [[0.5; 0.75]%float] /\
  AnglesFile.prepareForQuerying Sample.gdal_angles Sample.angles_file_info
  = (Sample.angles_file_info, Raise TypeError).
Proof. split; reflexivity. Qed.

End ClaimC1.

(** *** Claim C9 *)

Section ClaimC9.

Import MTLSpec.

Lemma anglesFromMTLData_found (mtl : gmap string string)
    (sa se : string) (azimuth elevation : float) :
  mtl !! "SUN_AZIMUTH" = Some sa ->
  mtl !! "SUN_ELEVATION" = Some se ->
  Float.py_float sa = Ok azimuth ->
  Float.py_float se = Ok elevation ->
  anglesFromMTLData mtl =
  Ok (AngleConstant.init
        (PyFloat (Float.np_radians (90.0 - elevation)%float))
        (PyFloat (Float.np_radians azimuth))
        (PyFloat 0.0) (PyFloat 0.0)).
Proof.
  intros Ha He Hpa Hpe. unfold anglesFromMTLData.
  destruct (contains_Some mtl _ _ Ha) as [-> _].
  destruct (contains_Some mtl _ _ He) as [-> _].
  rewrite (float_item_Some _ _ _ _ Ha Hpa), (float_item_Some _ _ _ _ He Hpe).
  reflexivity.
Qed.

Lemma anglesFromMTLData_missing (mtl : gmap string string) :
  mtl !! "SUN_AZIMUTH" = None \/ mtl !! "SUN_ELEVATION" = None ->
  numeric_at mtl "SUN_AZIMUTH" ->
  numeric_at mtl "SUN_ELEVATION" ->
  anglesFromMTLData mtl =
  Raise (FmaskFileError
           "Cannot find SUN_AZIMUTH/SUN_ELEVATION fields in MTL file").
Proof.
  intros Hmiss Hna Hne. unfold anglesFromMTLData.
  destruct (mtl !! "SUN_AZIMUTH") as [sa|] eqn:Ha;
    destruct (mtl !! "SUN_ELEVATION") as [se|] eqn:He.
  - destruct Hmiss; discriminate.
  - destruct (Hna sa Ha) as [a Hpa].
    destruct (contains_Some mtl _ _ Ha) as [-> _].
    rewrite (float_item_Some _ _ _ _ Ha Hpa), (contains_None _ _ He).
    reflexivity.
  - destruct (Hne se He) as [e Hpe].
    destruct (contains_Some mtl _ _ He) as [-> _].
    rewrite (float_item_Some _ _ _ _ He Hpe), (contains_None _ _ Ha).
    reflexivity.
  - now rewrite (contains_None _ _ Ha), (contains_None _ _ He).
Qed.

(** C9 (as the code has it). For an MTL file whose dictionary holds
    numerals under the two sun keys where they are present (a value that
    [float] does not read raises [ValueError] before the keys are looked
    for): with both [SUN_AZIMUTH] and
    [SUN_ELEVATION] the result is the constant provider with solar zenith
    [radians(90 - elevation)], solar azimuth [radians(azimuth)] and both
    view angles [0.0]; with either key absent it is an [FmaskFileError],
    the file-format error. *)
Theorem readAnglesFromLandsatMTL_spec
    (fs : filesystem) (mtlfile : string) (mtl : gmap string string) :
  readMTLFile fs mtlfile = Ok mtl ->
  numeric_at mtl "SUN_AZIMUTH" ->
  numeric_at mtl "SUN_ELEVATION" ->
  (forall (sa se : string) (azimuth elevation : float),
     mtl !! "SUN_AZIMUTH" = Some sa ->
     mtl !! "SUN_ELEVATION" = Some se ->
     Float.py_float sa = Ok azimuth ->
     Float.py_float se = Ok elevation ->
     readAnglesFromLandsatMTL fs mtlfile =
     Ok (AngleConstant.init
           (PyFloat (Float.np_radians (90.0 - elevation)%float))
           (PyFloat (Float.np_radians azimuth))
           (PyFloat 0.0) (PyFloat 0.0))) /\
  (mtl !! "SUN_AZIMUTH" = None \/ mtl !! "SUN_ELEVATION" = None ->
   exists msg : string,
     readAnglesFromLandsatMTL fs mtlfile = Raise (FmaskFileError msg) /\
     in_taxonomy (FmaskFileError msg) = true).
Proof.
  intros Hread Hna Hne. unfold readAnglesFromLandsatMTL. rewrite Hread. simpl.
  split.
  - intros. now apply anglesFromMTLData_found with (sa := sa) (se := se).
  - intros Hmiss. eexists. split; [|reflexivity].
    now apply anglesFromMTLData_missing.
Qed.

(** The example of the specification: [SUN_ELEVATION = 45.0] gives the
    zenith [radians(45.0)], [SUN_AZIMUTH = 180.0] the azimuth
    [radians(180.0)]; without the elevation the reader raises. *)
Lemma readAnglesFromLandsatMTL_spec_witness :
  readAnglesFromLandsatMTL Sample.landsat_fs "sun_MTL.txt" =
  Ok (AngleConstant.init
        (PyFloat (Float.np_radians 45.0))
        (PyFloat (Float.np_radians 180.0))
        (PyFloat 0.0) (PyFloat 0.0)) /\
  exists msg : string,
    readAnglesFromLandsatMTL Sample.landsat_fs "azimuth_only_MTL.txt" =
    Raise (FmaskFileError msg) /\
    in_taxonomy (FmaskFileError msg) = true.
Proof.
  split.
  - refine (proj1 (readAnglesFromLandsatMTL_spec Sample.landsat_fs
                     "sun_MTL.txt"
                     {[ "SUN_AZIMUTH" := "180.0"; "SUN_ELEVATION" := "45.0" ]}
                     _ _ _) "180.0" "45.0" 180%float 45%float _ _ _ _);
      first [ intros v Hv; vm_compute in Hv;
              first [ discriminate Hv
                    | injection Hv as <-; eexists; vm_compute; reflexivity ]
            | vm_compute; reflexivity ].
  - refine (proj2 (readAnglesFromLandsatMTL_spec Sample.landsat_fs
                     "azimuth_only_MTL.txt"
                     {[ "SUN_AZIMUTH" := "180.0" ]} _ _ _) _);
      first [ intros v Hv; vm_compute in Hv;
              first [ discriminate Hv
                    | injection Hv as <-; eexists; vm_compute; reflexivity ]
            | right; vm_compute; reflexivity
            | vm_compute; reflexivity ].
Defined.

(** The sample file with the azimuth [north] and no elevation: the reader
    raises [ValueError] at the azimuth. *)
Lemma readAngles_north :
  readMTLFile Sample.north_fs "north_MTL.txt"
  = Ok {[ "SUN_AZIMUTH" := "north" ]} /\
  readAnglesFromLandsatMTL Sample.north_fs "north_MTL.txt" = Raise ValueError.
Proof. split; vm_compute; reflexivity. Qed.

(** C9 as stated fails: it is not so that every MTL file without one of
    the two sun keys makes the reader raise the file-format error. *)
Lemma readAngles_missing_key_not_always_file_error :
  ~ (forall (fs : filesystem) (mtlfile : string) (mtl : gmap string string),
       readMTLFile fs mtlfile = Ok mtl ->
       mtl !! "SUN_AZIMUTH" = None \/ mtl !! "SUN_ELEVATION" = None ->
       exists msg : string,
         readAnglesFromLandsatMTL fs mtlfile = Raise (FmaskFileError msg)).
Proof.
  intros Hclaim. destruct readAngles_north as [Hread Hraise].
  destruct (Hclaim _ _ _ Hread) as [msg Hmsg].
  - right. reflexivity.
  - rewrite Hraise in Hmsg. discriminate.
Qed.

End ClaimC9.

(** *** Claim C3 *)

Section ClaimC3.

Import Sentinel2.

(** What the reader returns on a document whose first [Mean_Sun_Angle]
    element carries the two angles: the numbers as they are written, and
    the integer [0] for both view angles. No conversion is applied. *)
Lemma meanSunAnglesOfDocument_found (xmldoc : list node)
    (item zen azi : node) (items zens azis : list node)
    (zenText aziText : string) (zenith azimuth : float) :
  getElementsByTagName xmldoc "Mean_Sun_Angle" = item :: items ->
  getElementsByTagName (childNodes_of item) "ZENITH_ANGLE" = zen :: zens ->
  getElementsByTagName (childNodes_of item) "AZIMUTH_ANGLE" = azi :: azis ->
  data_of (firstChild zen) = Ok zenText ->
  data_of (firstChild azi) = Ok aziText ->
  Float.py_float zenText = Ok zenith ->
  Float.py_float aziText = Ok azimuth ->
  meanSunAnglesOfDocument xmldoc =
  Ok (AngleConstant.init (PyFloat zenith) (PyFloat azimuth) (PyInt 0) (PyInt 0)).
Proof.
  intros Hitem Hzen Hazi Hzd Had Hzf Haf. unfold meanSunAnglesOfDocument.
  rewrite Hitem, index_head. cbn [bind].
  rewrite Hzen, index_head. cbn [bind]. rewrite Hzd. cbn [bind].
  rewrite Hzf. cbn [bind].
  rewrite Hazi, index_head. cbn [bind]. rewrite Had. cbn [bind].
  now rewrite Haf.
Qed.

(** A document without the element is an [IndexError]. *)
Lemma meanSunAnglesOfDocument_missing (xmldoc : list node) :
  getElementsByTagName xmldoc "Mean_Sun_Angle" = [] ->
  meanSunAnglesOfDocument xmldoc = Raise IndexError.
Proof.
  intros H. unfold meanSunAnglesOfDocument. now rewrite H, index_nil.
Qed.

(** C3 (what the code does). On the sample granule, whose mean sun angle
    is 30.0 and 150.0 degrees, the reader returns a constant provider with
    solar zenith 30.0 and solar azimuth 150.0: the numbers of the file, not
    their value in radians, which [numpy.radians] would give and which
    differs. The view angles are the integer 0. *)
Theorem getMeanSunAngles_keeps_degrees :
  @getMeanSunAngles Sample.minidom "granule.xml" =
  Ok (AngleConstant.init (PyFloat 30.0) (PyFloat 150.0) (PyInt 0) (PyInt 0)) /\
  PyFloat 30.0 <> PyFloat (Float.np_radians 30.0) /\
  PyFloat 150.0 <> PyFloat (Float.np_radians 150.0).
Proof.
  split; [vm_compute; reflexivity|].
  split; apply PyFloat_neq; vm_compute; reflexivity.
Qed.

(** The Landsat reader on the same two angles (elevation 60.0, so zenith
    30.0) does convert. *)
Example landsat_reader_converts :
  anglesFromMTLData {[ "SUN_AZIMUTH" := "150.0"; "SUN_ELEVATION" := "60.0" ]} =
  Ok (AngleConstant.init (PyFloat (Float.np_radians 30.0))
        (PyFloat (Float.np_radians 150.0)) (PyFloat 0.0) (PyFloat 0.0)).
Proof. vm_compute. reflexivity. Qed.

End ClaimC3.

(** ** Thermal information *)

(** *** Claim C2 *)

Section ClaimC2.

(** With spacecraft, sensor, gain and offset in the dictionary and the K2
    key absent, K2 is looked up in [LANDSAT_K1_DICT], the table of K1. *)
Lemma thermalInfoFromMTLData_K2_absent (mtlData : gmap string string)
    (spaceCraft band sensor : string) (gain offset : float) (tb : Z) :
  mtlData !! "SPACECRAFT_ID" = Some spaceCraft ->
  LANDSAT_TH_BAND_NUM_DICT !! spaceCraft = Some band ->
  float_item mtlData (percent_s LANDSAT_RADIANCE_MULT band) = Ok gain ->
  float_item mtlData (percent_s LANDSAT_RADIANCE_ADD band) = Ok offset ->
  mtlData !! "SENSOR_ID" = Some sensor ->
  mtlData !! percent_s LANDSAT_K2_CONST band = None ->
  thermalInfoFromMTLData mtlData tb =
  (k1 <- (if contains mtlData (percent_s LANDSAT_K1_CONST band)
          then float_item mtlData (percent_s LANDSAT_K1_CONST band)
          else getitem LANDSAT_K1_DICT sensor) ;;
   k2 <- getitem LANDSAT_K1_DICT sensor ;;
   Ok (mkThermalFileInfo tb gain offset k1 k2)).
Proof.
  intros Hcraft Hband Hgain Hoffset Hsensor Hk2.
  unfold thermalInfoFromMTLData.
  destruct (contains_Some _ _ _ Hcraft) as [-> ->]. cbn [bind].
  destruct (contains_Some _ _ _ Hband) as [_ ->]. cbn [bind].
  rewrite Hgain, Hoffset. cbn [bind].
  destruct (contains_Some _ _ _ Hsensor) as [-> ->]. cbn [bind read_local].
  rewrite (contains_None _ _ Hk2).
  destruct (if contains mtlData (percent_s LANDSAT_K1_CONST band)
            then float_item mtlData (percent_s LANDSAT_K1_CONST band)
            else getitem LANDSAT_K1_DICT sensor) as [k1|e]; cbn [bind read_local];
    [|reflexivity].
  destruct (getitem LANDSAT_K1_DICT sensor); reflexivity.
Qed.

(** C2 (what the code does). On the sample Landsat 5 file (sensor TM, no
    K2 key) the K2 field of the result is 607.76, the K1 constant of the
    sensor family, and not 1260.56, the entry of [LANDSAT_K2_DICT]; the
    same holds for ETM with 666.09 in place of 1282.71. *)
Theorem readThermalInfo_K2_is_K1_constant :
  readThermalInfoFromLandsatMTL Sample.landsat_fs "LT5_MTL.txt" 0 =
  Ok (mkThermalFileInfo 0 0.055 1.18 607.76 607.76) /\
  LANDSAT_K2_DICT !! "TM" = Some 1260.56%float /\
  607.76%float <> 1260.56%float /\
  getitem LANDSAT_K1_DICT "ETM" = Ok 666.09%float /\
  LANDSAT_K2_DICT !! "ETM" = Some 1282.71%float /\
  666.09%float <> 1282.71%float.
Proof.
  repeat split; try (vm_compute; reflexivity);
    apply float_neq; vm_compute; reflexivity.
Qed.

End ClaimC2.

(** *** Claim C7 *)

Section ClaimC7.

(** The sensor without the spacecraft: the second block reads the local
    [band], which only the first block assigns. *)
Lemma thermalInfoFromMTLData_sensor_only (mtlData : gmap string string)
    (sensor : string) (tb : Z) :
  mtlData !! "SPACECRAFT_ID" = None ->
  mtlData !! "SENSOR_ID" = Some sensor ->
  thermalInfoFromMTLData mtlData tb = Raise (UnboundLocalError "band").
Proof.
  intros Hcraft Hsensor. unfold thermalInfoFromMTLData.
  rewrite (contains_None _ _ Hcraft). cbn [bind].
  destruct (contains_Some _ _ _ Hsensor) as [-> ->]. reflexivity.
Qed.

(** Neither identifier: the file-format error, as documented. *)
Lemma thermalInfoFromMTLData_no_identifier (mtlData : gmap string string)
    (tb : Z) :
  mtlData !! "SPACECRAFT_ID" = None ->
  mtlData !! "SENSOR_ID" = None ->
  thermalInfoFromMTLData mtlData tb =
  Raise (FmaskFileError "Cannot find SPACECRAFT_ID/SENSOR_ID in MTL file").
Proof.
  intros Hcraft Hsensor. unfold thermalInfoFromMTLData.
  now rewrite (contains_None _ _ Hcraft), (contains_None _ _ Hsensor).
Qed.

(** The spacecraft without the gain key: a [KeyError]. *)
Lemma thermalInfoFromMTLData_no_gain (mtlData : gmap string string)
    (spaceCraft band : string) (tb : Z) :
  mtlData !! "SPACECRAFT_ID" = Some spaceCraft ->
  LANDSAT_TH_BAND_NUM_DICT !! spaceCraft = Some band ->
  mtlData !! percent_s LANDSAT_RADIANCE_MULT band = None ->
  thermalInfoFromMTLData mtlData tb =
  Raise (KeyError (percent_s LANDSAT_RADIANCE_MULT band)).
Proof.
  intros Hcraft Hband Hgain. unfold thermalInfoFromMTLData.
  destruct (contains_Some _ _ _ Hcraft) as [-> ->]. cbn [bind].
  destruct (contains_Some _ _ _ Hband) as [_ ->]. cbn [bind].
  unfold float_item, getitem. now rewrite Hgain.
Qed.

(** C7 (what the code does). On the sample file that has [SENSOR_ID] and
    no [SPACECRAFT_ID] the reader raises [UnboundLocalError], which is
    neither of the two errors of the taxonomy. *)
Theorem readThermalInfo_sensor_without_spacecraft :
  readThermalInfoFromLandsatMTL Sample.landsat_fs "sensor_only_MTL.txt" 0 =
  Raise (UnboundLocalError "band") /\
  in_taxonomy (UnboundLocalError "band") = false.
Proof. split; vm_compute; reflexivity. Qed.

End ClaimC7.

(** *** Claim C4 *)

Section ClaimC4.

Context `{Numpy}.

Lemma map2_map2 {A B C : Type} (f : B -> C) (g : A -> B) (a : Np.array2 A) :
  Np.map2 f (Np.map2 g a) = Np.map2 (fun x => f (g x)) a.
Proof.
  unfold Np.map2. rewrite map_map. apply map_ext. intros row. apply map_map.
Qed.

Lemma zip_with_map_same {A B C D : Type} (f : B -> C -> D) (g : A -> B)
    (h : A -> C) (l : list A) :
  zip_with f (map g l) (map h l) = map (fun x => f (g x) (h x)) l.
Proof. induction l as [|x l IH]; simpl; [reflexivity|now rewrite IH]. Qed.

(** Overwriting under a mask that was computed from the array itself is a
    choice made element by element. *)
Lemma assign_masked_map2 {A : Type} (g : A -> float) (m : A -> bool)
    (v : float) (a : Np.array2 A) :
  Np.assign_masked (Np.map2 g a) (Np.map2 m a) v =
  Np.map2 (fun x => if m x then v else g x) a.
Proof.
  unfold Np.assign_masked, Np.map2. rewrite zip_with_map_same.
  apply map_ext. intros row. apply zip_with_map_same.
Qed.

Lemma clamp_radiance_cases (rad : float) :
  ((rad <=? 0)%float = true -> clamp_radiance rad = 0.00001%float) /\
  ((rad <=? 0)%float = false -> clamp_radiance rad = rad).
Proof. unfold clamp_radiance. split; intros ->; reflexivity. Qed.

(** The chain of array operations is one function applied element by
    element. *)
Lemma scaleThermalDNtoC_fused (self : ThermalFileInfo)
    (scaledBT : list (Np.array2 Z)) :
  scaleThermalDNtoC self scaledBT =
  (band <- Np.index scaledBT (thermalBand1040um self) ;;
   Ok (Np.map2 (celsius_of_DN self) band)).
Proof.
  unfold scaleThermalDNtoC.
  destruct (Np.index scaledBT (thermalBand1040um self)) as [band|e];
    cbn [bind]; [|reflexivity].
  f_equal.
  unfold np_log_array, Np.sub_scalar, Np.scalar_div, Np.add_scalar,
    Np.mul_scalar, Np.astype_float, Np.le_scalar.
  rewrite !map2_map2.
  rewrite (assign_masked_map2
             (fun x => (Float.of_Z x * thermalGain1040um self
                        + thermalOffset1040um self)%float)
             (fun x => (Float.of_Z x * thermalGain1040um self
                        + thermalOffset1040um self <=? 0)%float)).
  rewrite !map2_map2. reflexivity.
Qed.

(** C4. [scaleThermalDNtoC] takes the configured band of the stack (an
    [IndexError] when there is no such band) and returns, element by
    element, the Celsius temperature of the digital number: the radiance
    [DN * gain + offset], replaced by 1e-5 when it is less than or equal to
    zero, then [K2 / ln(K1 / radiance + 1)] in Kelvin, minus 273.15. *)
Theorem scaleThermalDNtoC_elementwise (self : ThermalFileInfo)
    (scaledBT : list (Np.array2 Z)) :
  scaleThermalDNtoC self scaledBT =
  (band <- Np.index scaledBT (thermalBand1040um self) ;;
   Ok (Np.map2 (celsius_of_DN self) band)) /\
  (forall dn : Z,
     celsius_of_DN self dn =
     let radiance :=
       (Float.of_Z dn * thermalGain1040um self + thermalOffset1040um self)%float in
     let clamped :=
       if (radiance <=? 0)%float then 0.00001%float else radiance in
     let kelvin :=
       (thermalK2_1040um self
        / np_log (thermalK1_1040um self / clamped + 1.0))%float in
     (kelvin - 273.15)%float).
Proof. split; [apply scaleThermalDNtoC_fused|reflexivity]. Qed.

(** What one pixel of the result is. *)
Lemma scaleThermalDNtoC_pixel (self : ThermalFileInfo)
    (scaledBT : list (Np.array2 Z)) (band : Np.array2 Z)
    (r c : nat) (row : list Z) (dn : Z) :
  Np.index scaledBT (thermalBand1040um self) = Ok band ->
  band !! r = Some row ->
  row !! c = Some dn ->
  exists bt row',
    scaleThermalDNtoC self scaledBT = Ok bt /\
    bt !! r = Some row' /\
    row' !! c = Some (celsius_of_DN self dn).
Proof.
  intros Hband Hrow Hdn.
  rewrite scaleThermalDNtoC_fused, Hband. cbn [bind].
  exists (Np.map2 (celsius_of_DN self) band), (map (celsius_of_DN self) row).
  split; [reflexivity|]. unfold Np.map2, Np.array2 in *. split.
  - change (map (map (celsius_of_DN self)) band)
      with (fmap (M := list) (map (celsius_of_DN self)) band).
    now rewrite list_lookup_fmap, Hrow.
  - change (map (celsius_of_DN self) row)
      with (fmap (M := list) (celsius_of_DN self) row).
    now rewrite list_lookup_fmap, Hdn.
Qed.

End ClaimC4.

(** The clamp on the sample parameters (gain 1, offset -5): the digital
    number 3 has radiance -2 and 5 has radiance 0, both are replaced by
    1e-5; 7 has radiance 2, which stays. *)
Example clamp_radiance_sample :
  radiance_of_DN Sample.thermal_info 3 = (-2)%float /\
  clamp_radiance (radiance_of_DN Sample.thermal_info 3) = 0.00001%float /\
  radiance_of_DN Sample.thermal_info 5 = 0%float /\
  clamp_radiance (radiance_of_DN Sample.thermal_info 5) = 0.00001%float /\
  clamp_radiance (radiance_of_DN Sample.thermal_info 7) = 2%float.
Proof. repeat split; vm_compute; reflexivity. Qed.

(** * Further properties of the code *)

(** ** Lines, pieces and trimming *)

Section StringFacts.

Lemma append_empty (s : string) : s ++ EmptyString = s.
Proof.
  induction s as [|c s IH]; [reflexivity|].
  change (String c (s ++ EmptyString) = String c s). now rewrite IH.
Qed.

Lemma join_cons_empty (piece : string) (rest : list string) :
  join EmptyString (piece :: rest) = piece ++ join EmptyString rest.
Proof.
  destruct rest as [|r rest]; simpl; [|reflexivity].
  now rewrite append_empty.
Qed.

Lemma file_lines_cons (c : ascii) (s : string) :
  c <> Str.newline ->
  exists line rest,
    Str.file_lines (String c s) = String c line :: rest /\
    (Str.file_lines s = line :: rest \/
     (Str.file_lines s = [] /\ line = EmptyString /\ rest = [])).
Proof.
  intros Hc. simpl. apply Ascii.eqb_neq in Hc. rewrite Hc.
  destruct (Str.file_lines s) as [|h t]; eauto 8.
Qed.

Lemma file_lines_join (text : string) :
  join EmptyString (Str.file_lines text) = text.
Proof.
  induction text as [|c text IH]; [reflexivity|].
  destruct (Ascii.eqb_spec c Str.newline) as [->|Hc].
  - simpl Str.file_lines. rewrite ?Ascii.eqb_refl.
    rewrite join_cons_empty, IH. reflexivity.
  - destruct (file_lines_cons c text Hc) as (line & rest & -> & [H|(H & -> & ->)]).
    + rewrite join_cons_empty. rewrite H, join_cons_empty in IH.
      now rewrite <- IH.
    + rewrite H in IH. simpl in IH. subst text. reflexivity.
Qed.

Lemma well_formed_line_cons (c : ascii) (last : bool) (line : string) :
  c <> Str.newline ->
  well_formed_line last line -> well_formed_line last (String c line).
Proof.
  intros Hc (body & Hb & H). exists (String c body). split.
  - simpl. apply Ascii.eqb_neq in Hc. now rewrite Hc.
  - destruct H as [->|(-> & -> & _)]; [left; reflexivity|].
    right. repeat split. discriminate.
Qed.

Lemma file_lines_well_formed (text : string) :
  well_formed_lines (Str.file_lines text).
Proof.
  induction text as [|c text IH]; [exact I|].
  destruct (Ascii.eqb_spec c Str.newline) as [->|Hc].
  - simpl Str.file_lines. rewrite ?Ascii.eqb_refl. split; [|exact IH].
    exists EmptyString. split; [reflexivity|]. left. reflexivity.
  - destruct (file_lines_cons c text Hc) as (line & rest & -> & [H|(H & -> & ->)]).
    + rewrite H in IH. destruct IH as [Hline Hrest]. split; [|exact Hrest].
      now apply well_formed_line_cons.
    + split; [|exact I]. exists (String c EmptyString). split.
      * simpl. apply Ascii.eqb_neq in Hc. now rewrite Hc.
      * right. repeat split. discriminate.
Qed.

(** Iterating over a file cuts its text into lines without losing a
    character: the lines joined give the text back, every line ends with
    its newline and has no other, and only the last line may come without
    one (it is then not empty). *)
Lemma file_lines_partition (text : string) :
  join EmptyString (Str.file_lines text) = text /\
  well_formed_lines (Str.file_lines text).
Proof. split; [apply file_lines_join|apply file_lines_well_formed]. Qed.

Section Split.

Variable sep : ascii.

Lemma split_cons (c : ascii) (s : string) :
  c <> sep ->
  exists piece rest,
    Str.split sep s = piece :: rest /\
    Str.split sep (String c s) = String c piece :: rest.
Proof.
  intros Hc. simpl. apply Ascii.eqb_neq in Hc. rewrite Hc.
  destruct (Str.split sep s) as [|h t] eqn:E; [|eauto].
  now destruct (split_not_nil sep s).
Qed.

Lemma join_cons_sep (piece next : string) (rest : list string) :
  join (String sep EmptyString) (piece :: next :: rest) =
  piece ++ String sep (join (String sep EmptyString) (next :: rest)).
Proof. reflexivity. Qed.

Lemma split_join (s : string) :
  join (String sep EmptyString) (Str.split sep s) = s.
Proof.
  induction s as [|c s IH]; [reflexivity|].
  destruct (Ascii.eqb_spec c sep) as [->|Hc].
  - simpl Str.split. rewrite ?Ascii.eqb_refl.
    destruct (Str.split sep s) as [|h t] eqn:E;
      [now destruct (split_not_nil sep s)|].
    rewrite join_cons_sep, IH. reflexivity.
  - destruct (split_cons c s Hc) as (piece & rest & E & ->).
    rewrite E in IH. destruct rest as [|next rest].
    + simpl in *. now rewrite IH.
    + rewrite join_cons_sep in *. now rewrite <- IH.
Qed.

Lemma split_pieces_clean (s : string) :
  Forall (fun piece => Str.count sep piece = O) (Str.split sep s).
Proof.
  induction s as [|c s IH]; [repeat constructor|].
  destruct (Ascii.eqb_spec c sep) as [->|Hc].
  - simpl Str.split. rewrite ?Ascii.eqb_refl. now constructor.
  - destruct (split_cons c s Hc) as (piece & rest & E & ->).
    rewrite E in IH. inversion IH as [|? ? Hp Hr]; subst.
    constructor; [|exact Hr]. simpl. apply Ascii.eqb_neq in Hc. now rewrite Hc.
Qed.

(** Splitting at a separator loses nothing: the pieces joined with
    the separator give the string back, no piece holds the separator, and
    there is one piece more than there are separators. *)
Lemma split_round_trip (s : string) :
  join (String sep EmptyString) (Str.split sep s) = s /\
  Forall (fun piece => Str.count sep piece = O) (Str.split sep s) /\
  length (Str.split sep s) = S (Str.count sep s).
Proof.
  split; [apply split_join|]. split; [apply split_pieces_clean|].
  apply split_length.
Qed.

End Split.

End StringFacts.

(** ** The dictionary of an MTL file *)

Section StripFacts.

Variable p : ascii -> bool.

Lemma lstrip_head (s : string) :
  Str.lstrip_chars p s = EmptyString \/
  exists c r, Str.lstrip_chars p s = String c r /\ p c = false.
Proof.
  induction s as [|c s IH]; simpl; [now left|].
  destruct (p c) eqn:Hc; [exact IH|]. right. eauto.
Qed.

Lemma rstrip_cons_keep (c : ascii) (r : string) :
  p c = false ->
  Str.rstrip_chars p (String c r) = String c (Str.rstrip_chars p r).
Proof.
  intros Hc. simpl. rewrite Hc. now destruct (Str.rstrip_chars p r).
Qed.

Lemma rstrip_unfold (c : ascii) (s : string) :
  Str.rstrip_chars p (String c s) =
  match Str.rstrip_chars p s with
  | EmptyString => if p c then EmptyString else String c EmptyString
  | String d r => String c (String d r)
  end.
Proof. reflexivity. Qed.

Lemma rstrip_idempotent (s : string) :
  Str.rstrip_chars p (Str.rstrip_chars p s) = Str.rstrip_chars p s.
Proof.
  induction s as [|c s IH]; [reflexivity|].
  rewrite (rstrip_unfold c s).
  destruct (Str.rstrip_chars p s) as [|d r] eqn:E.
  - destruct (p c) eqn:Hc; [reflexivity|]. rewrite rstrip_unfold. simpl.
    now rewrite Hc.
  - rewrite rstrip_unfold, IH. reflexivity.
Qed.

Lemma strip_chars_idempotent (s : string) :
  Str.strip_chars p (Str.strip_chars p s) = Str.strip_chars p s.
Proof.
  unfold Str.strip_chars.
  destruct (lstrip_head s) as [->|(c & r & -> & Hc)]; [reflexivity|].
  rewrite (rstrip_cons_keep _ _ Hc). simpl Str.lstrip_chars. rewrite Hc.
  rewrite (rstrip_cons_keep _ _ Hc). now rewrite rstrip_idempotent.
Qed.

Lemma count_lstrip (x : ascii) (s : string) :
  (Str.count x (Str.lstrip_chars p s) <= Str.count x s)%nat.
Proof.
  induction s as [|c s IH]; simpl; [lia|].
  destruct (p c); simpl; destruct (Ascii.eqb c x); lia.
Qed.

Lemma count_rstrip (x : ascii) (s : string) :
  (Str.count x (Str.rstrip_chars p s) <= Str.count x s)%nat.
Proof.
  induction s as [|c s IH]; simpl; [lia|].
  destruct (Str.rstrip_chars p s) as [|d r].
  - destruct (p c); simpl; destruct (Ascii.eqb c x); lia.
  - simpl in *. destruct (Ascii.eqb c x); lia.
Qed.

Lemma count_strip_chars (x : ascii) (s : string) :
  (Str.count x (Str.strip_chars p s) <= Str.count x s)%nat.
Proof.
  unfold Str.strip_chars.
  pose proof (count_rstrip x (Str.lstrip_chars p s)).
  pose proof (count_lstrip x s). lia.
Qed.

End StripFacts.

Section MTLDictionary.

Import MTLSpec.

Lemma count_replace_same (old : ascii) (s : string) :
  Str.count old (Str.replace old EmptyString s) = O.
Proof.
  induction s as [|c s IH]; [reflexivity|]. simpl.
  destruct (Ascii.eqb c old) eqn:Hc; [exact IH|]. simpl. now rewrite Hc.
Qed.

Lemma count_replace_other (x old : ascii) (s : string) :
  (Str.count x (Str.replace old EmptyString s) <= Str.count x s)%nat.
Proof.
  induction s as [|c s IH]; simpl; [lia|].
  change (EmptyString ++ Str.replace old EmptyString s)
    with (Str.replace old EmptyString s).
  destruct (Ascii.eqb c old); simpl; destruct (Ascii.eqb c x); lia.
Qed.

(** What every entry looks like, whatever the line it comes from. *)
Lemma line_entry_clean (line key value : string) :
  line_entry line key value ->
  stripped key /\ Str.count Str.equals key = O /\
  stripped value /\ Str.count Str.quote value = O /\
  Str.count Str.equals value = O.
Proof.
  intros (left & right & _ & Hl & Hr & -> & ->). unfold stripped, Str.strip.
  repeat split; try apply strip_chars_idempotent.
  - pose proof (count_strip_chars Str.is_space Str.equals left). lia.
  - pose proof (count_strip_chars Str.is_space Str.quote
                  (Str.replace Str.quote EmptyString right)).
    rewrite count_replace_same in *. lia.
  - pose proof (count_strip_chars Str.is_space Str.equals
                  (Str.replace Str.quote EmptyString right)).
    pose proof (count_replace_other Str.equals Str.quote right). lia.
Qed.

(** X1. In the dictionary of an MTL file no key and no value has
    whitespace around it or holds an [=], and no value holds a quote
    character. *)
Theorem readMTLFile_entries_clean (fs : filesystem) (mtl : string)
    (dict : gmap string string) (key value : string) :
  readMTLFile fs mtl = Ok dict ->
  dict !! key = Some value ->
  stripped key /\ Str.count Str.equals key = O /\
  stripped value /\ Str.count Str.quote value = O /\
  Str.count Str.equals value = O.
Proof.
  unfold readMTLFile. destruct (open fs mtl) as [text|e]; [|discriminate].
  cbn [bind]. intros [= <-] Hlookup.
  apply readMTLLines_lookup in Hlookup as (pre & line & post & _ & Hline & _).
  now apply line_entry_clean in Hline.
Qed.

Lemma readMTLFile_entries_clean_witness :
  stripped "FOO" /\ Str.count Str.equals "FOO" = O /\
  stripped "baz" /\ Str.count Str.quote "baz" = O /\
  Str.count Str.equals "baz" = O.
Proof.
  apply (readMTLFile_entries_clean Sample.mtl_fs "scene_MTL.txt"
           {[ "FOO" := "baz" ]} "FOO" "baz"); vm_compute; reflexivity.
Defined.

Lemma readMTLLine_ignored (dict : gmap string string) (line : string) :
  Str.count Str.equals line <> 1%nat -> readMTLLine dict line = dict.
Proof.
  intros Hc. apply readMTLLine_no_entry. intros key value Hent.
  apply Hc. eapply line_entry_count; eauto.
Qed.

Lemma foldl_readMTLLine_filter (lines : list string) (dict : gmap string string) :
  foldl readMTLLine dict lines =
  foldl readMTLLine dict
    (List.filter (fun line => (Str.count Str.equals line =? 1)%nat) lines).
Proof.
  revert dict. induction lines as [|line lines IH]; intros dict; [reflexivity|].
  simpl. destruct (Nat.eqb_spec (Str.count Str.equals line) 1) as [Hc|Hc].
  - simpl. apply IH.
  - rewrite (readMTLLine_ignored _ _ Hc). apply IH.
Qed.

(** X2. The lines that do not have exactly one [=] (blank lines, [END],
    lines with two or more) can be taken out of the file without changing
    the dictionary. *)
Theorem readMTLLines_only_single_equals (lines : list string) :
  readMTLLines lines =
  readMTLLines
    (List.filter (fun line => (Str.count Str.equals line =? 1)%nat) lines).
Proof. apply foldl_readMTLLine_filter. Qed.

Lemma readMTLLine_union (dict base : gmap string string) (line : string) :
  readMTLLine (dict ∪ base) line = readMTLLine dict line ∪ base.
Proof.
  destruct (line_entry_dec line) as [(key & value & Hent)|Hno].
  - rewrite !(readMTLLine_entry _ _ _ _ Hent). now rewrite insert_union_l.
  - now rewrite !(readMTLLine_no_entry _ _ Hno).
Qed.

Lemma readMTLLines_app (first second : list string) :
  readMTLLines (first ++ second)%list =
  readMTLLines second ∪ readMTLLines first.
Proof.
  induction second as [|line second IH] using rev_ind.
  - rewrite app_nil_r. unfold readMTLLines at 2. simpl.
    now rewrite (left_id_L ∅ (∪)).
  - rewrite app_assoc, !readMTLLines_snoc, IH. apply readMTLLine_union.
Qed.

Lemma file_lines_nil (text : string) :
  Str.file_lines text = [] -> text = EmptyString.
Proof.
  destruct text as [|c text]; [reflexivity|]. simpl.
  destruct (Ascii.eqb c Str.newline); [discriminate|].
  destruct (Str.file_lines text); discriminate.
Qed.

Lemma file_lines_unfold (c : ascii) (s : string) :
  Str.file_lines (String c s) =
  if Ascii.eqb c Str.newline then String c EmptyString :: Str.file_lines s
  else match Str.file_lines s with
       | h :: t => String c h :: t
       | [] => [String c EmptyString]
       end.
Proof. reflexivity. Qed.

Lemma file_lines_app_newline (body rest : string) :
  Str.file_lines ((body ++ String Str.newline EmptyString) ++ rest) =
  (Str.file_lines (body ++ String Str.newline EmptyString)
   ++ Str.file_lines rest)%list.
Proof.
  induction body as [|c body IH]; [reflexivity|].
  change (Str.file_lines
            (String c ((body ++ String Str.newline EmptyString) ++ rest)) =
          (Str.file_lines (String c (body ++ String Str.newline EmptyString))
           ++ Str.file_lines rest)%list).
  rewrite !file_lines_unfold, IH.
  destruct (Ascii.eqb c Str.newline); [reflexivity|].
  destruct (Str.file_lines (body ++ String Str.newline EmptyString))
    as [|h t] eqn:E; [|reflexivity].
  apply file_lines_nil in E. now destruct body.
Qed.

(** X3. Two MTL texts one after the other, the first ending with a
    newline (or empty): the dictionary is that of the second, completed
    with the entries of the first under the keys the second does not
    have. *)
Theorem readMTL_concatenation (first second : string) :
  complete_text first ->
  readMTLLines (Str.file_lines (first ++ second)) =
  readMTLLines (Str.file_lines second) ∪ readMTLLines (Str.file_lines first).
Proof.
  intros [->|(body & ->)].
  - simpl. unfold readMTLLines at 3. simpl. now rewrite (right_id_L ∅ (∪)).
  - rewrite file_lines_app_newline. apply readMTLLines_app.
Qed.

Lemma readMTL_concatenation_witness :
  readMTLLines (Str.file_lines (Sample.sun_text ++ Sample.tm_text)) =
  readMTLLines (Str.file_lines Sample.tm_text)
  ∪ readMTLLines (Str.file_lines Sample.sun_text).
Proof.
  apply (readMTL_concatenation Sample.sun_text Sample.tm_text).
  right. exists ("SUN_AZIMUTH = 180.0" ++ Sample.nl ++ "SUN_ELEVATION = 45.0").
  reflexivity.
Defined.

End MTLDictionary.

(** ** The thermal reader *)

Section ThermalReader.

Lemma float_item_contains (d : gmap string string) (k : string) (x : float) :
  float_item d k = Ok x -> contains d k = true.
Proof.
  unfold float_item, getitem, contains. now destruct (d !! k).
Qed.

Lemma thermalInfoFromMTLData_complete (mtlData : gmap string string)
    (spaceCraft band sensor : string) (gain offset k1 k2 : float) (tb : Z) :
  mtlData !! "SPACECRAFT_ID" = Some spaceCraft ->
  LANDSAT_TH_BAND_NUM_DICT !! spaceCraft = Some band ->
  mtlData !! "SENSOR_ID" = Some sensor ->
  float_item mtlData (percent_s LANDSAT_RADIANCE_MULT band) = Ok gain ->
  float_item mtlData (percent_s LANDSAT_RADIANCE_ADD band) = Ok offset ->
  float_item mtlData (percent_s LANDSAT_K1_CONST band) = Ok k1 ->
  float_item mtlData (percent_s LANDSAT_K2_CONST band) = Ok k2 ->
  thermalInfoFromMTLData mtlData tb = Ok (mkThermalFileInfo tb gain offset k1 k2).
Proof.
  intros Hcraft Hband Hsensor Hgain Hoffset Hk1 Hk2.
  unfold thermalInfoFromMTLData.
  destruct (contains_Some _ _ _ Hcraft) as [-> ->]. cbn [bind].
  destruct (contains_Some _ _ _ Hband) as [_ ->]. cbn [bind].
  rewrite Hgain, Hoffset. cbn [bind].
  destruct (contains_Some _ _ _ Hsensor) as [-> ->]. cbn [bind read_local].
  rewrite (float_item_contains _ _ _ Hk1), Hk1. cbn [bind].
  rewrite (float_item_contains _ _ _ Hk2), Hk2. reflexivity.
Qed.

(** X4. An MTL file that names a spacecraft of the table and the sensor,
    and has gain, offset, K1 and K2 of the thermal band of that spacecraft
    as numerals, gives a [ThermalFileInfo] with exactly those four numbers
    and the band index that was passed in. *)
Theorem readThermalInfo_from_file_values (fs : filesystem) (mtlfile : string)
    (mtlData : gmap string string) (spaceCraft band sensor : string)
    (gain offset k1 k2 : float) (tb : Z) :
  readMTLFile fs mtlfile = Ok mtlData ->
  mtlData !! "SPACECRAFT_ID" = Some spaceCraft ->
  LANDSAT_TH_BAND_NUM_DICT !! spaceCraft = Some band ->
  mtlData !! "SENSOR_ID" = Some sensor ->
  float_item mtlData (percent_s LANDSAT_RADIANCE_MULT band) = Ok gain ->
  float_item mtlData (percent_s LANDSAT_RADIANCE_ADD band) = Ok offset ->
  float_item mtlData (percent_s LANDSAT_K1_CONST band) = Ok k1 ->
  float_item mtlData (percent_s LANDSAT_K2_CONST band) = Ok k2 ->
  readThermalInfoFromLandsatMTL fs mtlfile tb =
  Ok (mkThermalFileInfo tb gain offset k1 k2).
Proof.
  intros Hread. unfold readThermalInfoFromLandsatMTL. rewrite Hread. cbn [bind].
  apply thermalInfoFromMTLData_complete.
Qed.

Lemma readThermalInfo_from_file_values_witness :
  readThermalInfoFromLandsatMTL Sample.thermal_fs "LC8_MTL.txt" 3 =
  Ok (mkThermalFileInfo 3 0.0003 0.1 774.89 1321.08).
Proof.
  apply (readThermalInfo_from_file_values Sample.thermal_fs "LC8_MTL.txt"
           (readMTLLines (Str.file_lines Sample.oli_text))
           "LANDSAT_8" "10" "OLI_TIRS");
    vm_compute; reflexivity.
Defined.

(** X5. Without [SENSOR_ID] the reader raises the file-format error even
    when the file names a spacecraft of the table and has every number:
    K1 and K2 are only looked for under the sensor. *)
Theorem readThermalInfo_needs_sensor (fs : filesystem) (mtlfile : string)
    (mtlData : gmap string string) (spaceCraft band : string)
    (gain offset : float) (tb : Z) :
  readMTLFile fs mtlfile = Ok mtlData ->
  mtlData !! "SPACECRAFT_ID" = Some spaceCraft ->
  LANDSAT_TH_BAND_NUM_DICT !! spaceCraft = Some band ->
  float_item mtlData (percent_s LANDSAT_RADIANCE_MULT band) = Ok gain ->
  float_item mtlData (percent_s LANDSAT_RADIANCE_ADD band) = Ok offset ->
  mtlData !! "SENSOR_ID" = None ->
  readThermalInfoFromLandsatMTL fs mtlfile tb =
  Raise (FmaskFileError "Cannot find SPACECRAFT_ID/SENSOR_ID in MTL file").
Proof.
  intros Hread Hcraft Hband Hgain Hoffset Hsensor.
  unfold readThermalInfoFromLandsatMTL. rewrite Hread. cbn [bind].
  unfold thermalInfoFromMTLData.
  destruct (contains_Some _ _ _ Hcraft) as [-> ->]. cbn [bind].
  destruct (contains_Some _ _ _ Hband) as [_ ->]. cbn [bind].
  rewrite Hgain, Hoffset. cbn [bind].
  now rewrite (contains_None _ _ Hsensor).
Qed.

Lemma readThermalInfo_needs_sensor_witness :
  readThermalInfoFromLandsatMTL Sample.thermal_fs "LC8_no_sensor_MTL.txt" 0 =
  Raise (FmaskFileError "Cannot find SPACECRAFT_ID/SENSOR_ID in MTL file").
Proof.
  apply (readThermalInfo_needs_sensor Sample.thermal_fs "LC8_no_sensor_MTL.txt"
           (readMTLLines (Str.file_lines Sample.oli_lines))
           "LANDSAT_8" "10" 0.0003%float 0.1%float);
    vm_compute; reflexivity.
Defined.

(** X6. A spacecraft that is not one of the four of the table is a
    [KeyError] on its name, whatever else the file holds. *)
Theorem readThermalInfo_unknown_spacecraft (fs : filesystem) (mtlfile : string)
    (mtlData : gmap string string) (spaceCraft : string) (tb : Z) :
  readMTLFile fs mtlfile = Ok mtlData ->
  mtlData !! "SPACECRAFT_ID" = Some spaceCraft ->
  LANDSAT_TH_BAND_NUM_DICT !! spaceCraft = None ->
  readThermalInfoFromLandsatMTL fs mtlfile tb = Raise (KeyError spaceCraft).
Proof.
  intros Hread Hcraft Hband.
  unfold readThermalInfoFromLandsatMTL. rewrite Hread. cbn [bind].
  unfold thermalInfoFromMTLData.
  destruct (contains_Some _ _ _ Hcraft) as [-> ->]. cbn [bind].
  unfold getitem. now rewrite Hband.
Qed.

Lemma readThermalInfo_unknown_spacecraft_witness :
  readThermalInfoFromLandsatMTL Sample.thermal_fs "LC9_MTL.txt" 0 =
  Raise (KeyError "LANDSAT_9").
Proof.
  apply (readThermalInfo_unknown_spacecraft Sample.thermal_fs "LC9_MTL.txt"
           (readMTLLines (Str.file_lines Sample.landsat9_text)));
    vm_compute; reflexivity.
Defined.

(** The table of thermal bands has the four spacecraft and no other. *)
Lemma LANDSAT_TH_BAND_NUM_DICT_keys (spaceCraft band : string) :
  LANDSAT_TH_BAND_NUM_DICT !! spaceCraft = Some band ->
  (spaceCraft = "LANDSAT_4" /\ band = "6") \/
  (spaceCraft = "LANDSAT_5" /\ band = "6") \/
  (spaceCraft = "LANDSAT_7" /\ band = "6_VCID_1") \/
  (spaceCraft = "LANDSAT_8" /\ band = "10").
Proof.
  unfold LANDSAT_TH_BAND_NUM_DICT.
  rewrite !lookup_insert_Some, lookup_empty. intuition (subst; auto; discriminate).
Qed.

(** X7. What a result tells about the file: a [ThermalFileInfo] comes back
    only from a file that names one of the four spacecraft and the sensor;
    its band index is the one passed in, and its gain and offset are the
    numerals under the thermal band of that spacecraft. *)
Theorem thermalInfo_result_sound (mtlData : gmap string string) (tb : Z)
    (info : ThermalFileInfo) :
  thermalInfoFromMTLData mtlData tb = Ok info ->
  exists spaceCraft band sensor : string,
    mtlData !! "SPACECRAFT_ID" = Some spaceCraft /\
    LANDSAT_TH_BAND_NUM_DICT !! spaceCraft = Some band /\
    mtlData !! "SENSOR_ID" = Some sensor /\
    thermalBand1040um info = tb /\
    float_item mtlData (percent_s LANDSAT_RADIANCE_MULT band)
    = Ok (thermalGain1040um info) /\
    float_item mtlData (percent_s LANDSAT_RADIANCE_ADD band)
    = Ok (thermalOffset1040um info).
Proof.
  unfold thermalInfoFromMTLData, contains, getitem.
  destruct (mtlData !! "SPACECRAFT_ID") as [craft|] eqn:Hcraft; cbn [bind].
  - destruct (LANDSAT_TH_BAND_NUM_DICT !! craft) as [band|] eqn:Hband;
      cbn [bind]; [|discriminate].
    destruct (float_item mtlData (percent_s LANDSAT_RADIANCE_MULT band))
      as [gain|] eqn:Hgain; cbn [bind]; [|discriminate].
    destruct (float_item mtlData (percent_s LANDSAT_RADIANCE_ADD band))
      as [offset|] eqn:Hoffset; cbn [bind]; [|discriminate].
    destruct (mtlData !! "SENSOR_ID") as [sensor|] eqn:Hsensor;
      cbn [bind read_local]; [|discriminate].
    match goal with
    | |- context [bind ?c _] =>
        destruct c as [[[k1|] [k2|]]|]; cbn [bind]; try discriminate
    end.
    intros [= <-]. exists craft, band, sensor. simpl. auto 10.
  - destruct (mtlData !! "SENSOR_ID"); cbn [bind read_local]; discriminate.
Qed.

Lemma thermalInfo_result_sound_witness :
  exists spaceCraft band sensor : string,
    readMTLLines (Str.file_lines Sample.oli_text) !! "SPACECRAFT_ID"
    = Some spaceCraft /\
    LANDSAT_TH_BAND_NUM_DICT !! spaceCraft = Some band /\
    readMTLLines (Str.file_lines Sample.oli_text) !! "SENSOR_ID"
    = Some sensor /\
    thermalBand1040um (mkThermalFileInfo 3 0.0003 0.1 774.89 1321.08) = 3 /\
    float_item (readMTLLines (Str.file_lines Sample.oli_text))
      (percent_s LANDSAT_RADIANCE_MULT band) = Ok 0.0003%float /\
    float_item (readMTLLines (Str.file_lines Sample.oli_text))
      (percent_s LANDSAT_RADIANCE_ADD band) = Ok 0.1%float.
Proof.
  apply (thermalInfo_result_sound
           (readMTLLines (Str.file_lines Sample.oli_text)) 3
           (mkThermalFileInfo 3 0.0003 0.1 774.89 1321.08)).
  vm_compute. reflexivity.
Defined.

Lemma py_float_error (s : string) (e : exn) :
  Float.py_float s = Raise e -> e = ValueError.
Proof.
  unfold Float.py_float.
  repeat match goal with
         | |- context [match ?x with _ => _ end] => destruct x
         | |- context [if ?b then _ else _] => destruct b
         end; congruence.
Qed.

Lemma float_item_error (d : gmap string string) (k : string) (e : exn) :
  float_item d k = Raise e -> e = KeyError k \/ e = ValueError.
Proof.
  unfold float_item, getitem. destruct (d !! k) as [v|]; cbn [bind].
  - intros H. right. eapply py_float_error; eauto.
  - intros [= <-]. now left.
Qed.

(** X8. How the thermal reader can fail on a dictionary: with a
    [KeyError] (a spacecraft or sensor outside the tables, a missing gain
    or offset), with a [ValueError] (a value that is not a numeral), with
    an [UnboundLocalError], and that only when [SPACECRAFT_ID] is absent
    and [SENSOR_ID] present, or with the file-format error, and that only
    when [SENSOR_ID] is absent. *)
Theorem thermalInfo_failures (mtlData : gmap string string) (tb : Z)
    (e : exn) :
  thermalInfoFromMTLData mtlData tb = Raise e ->
  (exists key, e = KeyError key) \/
  e = ValueError \/
  (e = UnboundLocalError "band" /\
   mtlData !! "SPACECRAFT_ID" = None /\
   is_Some (mtlData !! "SENSOR_ID")) \/
  (exists msg, e = FmaskFileError msg /\ mtlData !! "SENSOR_ID" = None).
Proof.
  unfold thermalInfoFromMTLData, contains, getitem.
  destruct (mtlData !! "SPACECRAFT_ID") as [craft|] eqn:Hcraft; cbn [bind].
  - destruct (LANDSAT_TH_BAND_NUM_DICT !! craft) as [band|] eqn:Hband;
      cbn [bind]; [|intros [= <-]; eauto].
    destruct (float_item mtlData (percent_s LANDSAT_RADIANCE_MULT band))
      as [gain|e1] eqn:Hgain; cbn [bind];
      [|intros [= <-]; destruct (float_item_error _ _ _ Hgain); subst; eauto].
    destruct (float_item mtlData (percent_s LANDSAT_RADIANCE_ADD band))
      as [offset|e2] eqn:Hoffset; cbn [bind];
      [|intros [= <-]; destruct (float_item_error _ _ _ Hoffset); subst; eauto].
    destruct (mtlData !! "SENSOR_ID") as [sensor|] eqn:Hsensor;
      cbn [bind read_local]; [|intros [= <-]; eauto 10].
    destruct (mtlData !! percent_s LANDSAT_K1_CONST band) as [v1|] eqn:Hv1;
      [destruct (float_item mtlData (percent_s LANDSAT_K1_CONST band))
         as [k1|e1] eqn:Hk1
      |destruct (LANDSAT_K1_DICT !! sensor) as [k1|] eqn:Hk1];
      cbn [bind];
      try (intros [= <-]; try destruct (float_item_error _ _ _ Hk1);
           subst; eauto; fail);
      (destruct (mtlData !! percent_s LANDSAT_K2_CONST band) as [v2|] eqn:Hv2;
       [destruct (float_item mtlData (percent_s LANDSAT_K2_CONST band))
          as [k2|e2] eqn:Hk2
       |try destruct (LANDSAT_K1_DICT !! sensor) as [k2|] eqn:Hk2];
       cbn [bind];
       try discriminate;
       try (intros [= <-]; try destruct (float_item_error _ _ _ Hk2);
            subst; eauto; fail)).
  - destruct (mtlData !! "SENSOR_ID") as [sensor|] eqn:Hsensor;
      cbn [bind read_local]; intros [= <-]; eauto 10.
Qed.

Lemma thermalInfo_failures_witness :
  (exists key, UnboundLocalError "band" = KeyError key) \/
  UnboundLocalError "band" = ValueError \/
  (UnboundLocalError "band" = UnboundLocalError "band" /\
   readMTLLines (Str.file_lines Sample.sensor_only_text) !! "SPACECRAFT_ID"
   = None /\
   is_Some (readMTLLines (Str.file_lines Sample.sensor_only_text)
              !! "SENSOR_ID")) \/
  (exists msg, UnboundLocalError "band" = FmaskFileError msg /\
     readMTLLines (Str.file_lines Sample.sensor_only_text) !! "SENSOR_ID"
     = None).
Proof.
  apply (thermalInfo_failures
           (readMTLLines (Str.file_lines Sample.sensor_only_text)) 0).
  vm_compute. reflexivity.
Defined.

End ThermalReader.

(** ** The configuration object *)

Section ConfigFacts.

Lemma default_bands_recognised (sensor : Z) :
  (exists b, Config.default_bands sensor = Ok b) <-> recognised sensor.
Proof.
  unfold Config.default_bands, recognised.
  destruct (Z.eqb_spec sensor FMASK_LANDSAT47);
    [|destruct (Z.eqb_spec sensor FMASK_LANDSAT8);
      [|destruct (Z.eqb_spec sensor FMASK_SENTINEL2)]];
    split; eauto; try (intros [b [=]]); intuition congruence.
Qed.

Lemma default_bands_unrecognised (sensor : Z) :
  ~ recognised sensor ->
  Config.default_bands sensor =
  Raise (FmaskParameterError "unrecognised sensor").
Proof.
  intros Hs. unfold Config.default_bands.
  destruct (Z.eqb_spec sensor FMASK_LANDSAT47);
    [|destruct (Z.eqb_spec sensor FMASK_LANDSAT8);
      [|destruct (Z.eqb_spec sensor FMASK_SENTINEL2)]];
    try reflexivity; exfalso; apply Hs; unfold recognised; auto.
Qed.

Lemma init_unrecognised (gdal : Gdal) (sensor : Z) :
  ~ recognised sensor ->
  Config.init gdal sensor = Raise (FmaskParameterError "unrecognised sensor").
Proof.
  intros Hs. unfold Config.init.
  now rewrite (default_bands_unrecognised _ Hs).
Qed.

Lemma init_no_driver (gdal : Gdal) (sensor : Z) :
  recognised sensor ->
  gdal_drivers gdal !! DEFAULTDRIVERNAME gdal = None ->
  Config.init gdal sensor =
  Raise (FmaskParameterError
           ("Cannot find GDAL driver " ++ DEFAULTDRIVERNAME gdal
            ++ " used by RIOS")).
Proof.
  intros Hs Hd. apply default_bands_recognised in Hs as [b Hb].
  unfold Config.init. rewrite Hb. cbn [bind]. rewrite Hd. reflexivity.
Qed.

Lemma init_with_driver (gdal : Gdal) (sensor : Z) :
  recognised sensor ->
  is_Some (gdal_drivers gdal !! DEFAULTDRIVERNAME gdal) ->
  exists cfg, Config.init gdal sensor = Ok cfg.
Proof.
  intros Hs [driver Hd]. apply default_bands_recognised in Hs as [b Hb].
  unfold Config.init. rewrite Hb. cbn [bind]. rewrite Hd. eauto.
Qed.

Lemma recognised_dec (sensor : Z) : recognised sensor \/ ~ recognised sensor.
Proof. unfold recognised. lia. Qed.

(** X9. The constructor succeeds exactly for the three sensors when GDAL
    has the default driver of RIOS. It checks the sensor first: any other
    sensor is the error [unrecognised sensor] whatever the drivers, and a
    missing driver is reported for a sensor it knows. Both are the
    configuration error. *)
Theorem FmaskConfig_init_outcome (gdal : Gdal) (sensor : Z) :
  ((exists cfg, Config.init gdal sensor = Ok cfg) <->
   recognised sensor /\
   is_Some (gdal_drivers gdal !! DEFAULTDRIVERNAME gdal)) /\
  (~ recognised sensor ->
   Config.init gdal sensor = Raise (FmaskParameterError "unrecognised sensor")) /\
  (recognised sensor ->
   gdal_drivers gdal !! DEFAULTDRIVERNAME gdal = None ->
   Config.init gdal sensor =
   Raise (FmaskParameterError
            ("Cannot find GDAL driver " ++ DEFAULTDRIVERNAME gdal
             ++ " used by RIOS"))) /\
  (forall e, Config.init gdal sensor = Raise e -> in_taxonomy e = true).
Proof.
  split; [|split; [apply init_unrecognised|split; [apply init_no_driver|]]].
  - split.
    + intros [cfg Hcfg]. destruct (recognised_dec sensor) as [Hs|Hs].
      * split; [exact Hs|].
        destruct (gdal_drivers gdal !! DEFAULTDRIVERNAME gdal) eqn:Hd; [eauto|].
        rewrite (init_no_driver _ _ Hs Hd) in Hcfg. discriminate.
      * rewrite (init_unrecognised _ _ Hs) in Hcfg. discriminate.
    + intros [Hs Hd]. now apply init_with_driver.
  - intros e He. destruct (recognised_dec sensor) as [Hs|Hs].
    + destruct (gdal_drivers gdal !! DEFAULTDRIVERNAME gdal) eqn:Hd.
      * destruct (init_with_driver gdal sensor Hs) as [cfg Hcfg]; [eauto|].
        rewrite Hcfg in He. discriminate.
      * rewrite (init_no_driver _ _ Hs Hd) in He. now injection He as <-.
    + rewrite (init_unrecognised _ _ Hs) in He. now injection He as <-.
Qed.

Lemma FmaskConfig_init_defaults_of (gdal : Gdal) (kind : Z)
    (cfg : FmaskConfig) :
  Config.init gdal kind = Ok cfg ->
  sensor cfg = kind /\
  thermalInfo cfg = None /\ anglesInfo cfg = None /\
  keepIntermediates cfg = false /\
  cloudBufferSize cfg = 5 /\ shadowBufferSize cfg = 10 /\
  verbose cfg = false /\ strictFmask cfg = false /\ tempDir cfg = ".".
Proof.
  unfold Config.init.
  destruct (Config.default_bands kind) as [b|e]; cbn [bind]; [|discriminate].
  destruct (gdal_drivers gdal !! DEFAULTDRIVERNAME gdal) as [driver|];
    [|discriminate].
  intros [= <-]. simpl. repeat split.
Qed.

(** X10. What a new configuration holds besides the bands: the sensor it
    was made for, no thermal and no angle information, the cloud buffer 5,
    the shadow buffer 10, the three flags off, the current directory for
    temporary files, and as extension of temporary files a dot followed by
    the extension the driver declares, [.tmp] when it declares none. *)
Theorem FmaskConfig_init_defaults (gdal : Gdal) (kind : Z)
    (cfg : FmaskConfig) :
  Config.init gdal kind = Ok cfg ->
  sensor cfg = kind /\
  thermalInfo cfg = None /\ anglesInfo cfg = None /\
  keepIntermediates cfg = false /\
  cloudBufferSize cfg = 5 /\ shadowBufferSize cfg = 10 /\
  verbose cfg = false /\ strictFmask cfg = false /\ tempDir cfg = "." /\
  exists driver,
    gdal_drivers gdal !! DEFAULTDRIVERNAME gdal = Some driver /\
    defaultExtension cfg =
    match driver !! "DMD_EXTENSION" with
    | Some ext => "." ++ ext
    | None => ".tmp"
    end.
Proof.
  unfold Config.init.
  destruct (Config.default_bands kind) as [b|e]; cbn [bind]; [|discriminate].
  destruct (gdal_drivers gdal !! DEFAULTDRIVERNAME gdal) as [driver|];
    [|discriminate].
  intros [= <-]. simpl. repeat split. exists driver. split; [reflexivity|].
  now destruct (driver !! "DMD_EXTENSION").
Qed.

Lemma FmaskConfig_init_defaults_witness :
  sensor Sample.sentinel2_config = FMASK_SENTINEL2 /\
  thermalInfo Sample.sentinel2_config = None /\
  anglesInfo Sample.sentinel2_config = None /\
  keepIntermediates Sample.sentinel2_config = false /\
  cloudBufferSize Sample.sentinel2_config = 5 /\
  shadowBufferSize Sample.sentinel2_config = 10 /\
  verbose Sample.sentinel2_config = false /\
  strictFmask Sample.sentinel2_config = false /\
  tempDir Sample.sentinel2_config = "." /\
  exists driver,
    gdal_drivers Sample.gdal_hfa !! DEFAULTDRIVERNAME Sample.gdal_hfa
    = Some driver /\
    defaultExtension Sample.sentinel2_config =
    match driver !! "DMD_EXTENSION" with
    | Some ext => "." ++ ext
    | None => ".tmp"
    end.
Proof.
  apply (FmaskConfig_init_defaults Sample.gdal_hfa FMASK_SENTINEL2
           Sample.sentinel2_config).
  reflexivity.
Defined.

(** X11. The roles of a new configuration: Blue, Green, Red, NIR, SWIR1
    and SWIR2 for every sensor, and Cirrus besides for Landsat 8 and
    Sentinel-2 only. *)
Theorem FmaskConfig_init_roles (gdal : Gdal) (sensor : Z) (cfg : FmaskConfig)
    (role : Z) :
  Config.init gdal sensor = Ok cfg ->
  (is_Some (bands cfg !! role) <->
   role = BAND_BLUE \/ role = BAND_GREEN \/ role = BAND_RED \/
   role = BAND_NIR \/ role = BAND_SWIR1 \/ role = BAND_SWIR2 \/
   (role = BAND_CIRRUS /\ sensor <> FMASK_LANDSAT47)).
Proof.
  intros Hinit. apply init_bands in Hinit. revert Hinit.
  unfold Config.default_bands, FMASK_LANDSAT47, FMASK_LANDSAT8,
    FMASK_SENTINEL2, BAND_BLUE, BAND_GREEN, BAND_RED, BAND_NIR, BAND_CIRRUS,
    BAND_SWIR1, BAND_SWIR2.
  destruct (Z.eqb_spec sensor 0);
    [|destruct (Z.eqb_spec sensor 1); [|destruct (Z.eqb_spec sensor 2)]];
    try discriminate; intros [= <-]; unfold is_Some;
    split.
  all: try (intros [x Hx]; rewrite !lookup_insert_Some, lookup_empty in Hx;
            intuition (try discriminate; lia)).
  all: intros H;
    assert (role = 0 \/ role = 1 \/ role = 2 \/ role = 3 \/ role = 4 \/
            role = 5 \/ role = 6) as Hr by lia;
    destruct Hr as [->|[->|[->|[->|[->|[->| ->]]]]]];
    try (eexists; reflexivity); exfalso; lia.
Qed.

Lemma FmaskConfig_init_roles_witness :
  is_Some (bands Sample.landsat47_config !! BAND_CIRRUS) <->
  BAND_CIRRUS = BAND_BLUE \/ BAND_CIRRUS = BAND_GREEN \/
  BAND_CIRRUS = BAND_RED \/ BAND_CIRRUS = BAND_NIR \/
  BAND_CIRRUS = BAND_SWIR1 \/ BAND_CIRRUS = BAND_SWIR2 \/
  (BAND_CIRRUS = BAND_CIRRUS /\ FMASK_LANDSAT47 <> FMASK_LANDSAT47).
Proof.
  apply (FmaskConfig_init_roles Sample.gdal_hfa FMASK_LANDSAT47
           Sample.landsat47_config BAND_CIRRUS).
  reflexivity.
Defined.

(** X12. [setReflectiveBand] is an assignment to one role: a lookup of the
    role gives the new index, every other role has what it had, and no
    other field of the configuration changes. *)
Theorem setReflectiveBand_assigns (cfg : FmaskConfig) (band index : Z) :
  let cfg' := Config.setReflectiveBand cfg band index in
  bands cfg' !! band = Some index /\
  (forall role, role <> band -> bands cfg' !! role = bands cfg !! role) /\
  sensor cfg' = sensor cfg /\
  thermalInfo cfg' = thermalInfo cfg /\ anglesInfo cfg' = anglesInfo cfg /\
  defaultExtension cfg' = defaultExtension cfg /\
  keepIntermediates cfg' = keepIntermediates cfg /\
  cloudBufferSize cfg' = cloudBufferSize cfg /\
  shadowBufferSize cfg' = shadowBufferSize cfg /\
  verbose cfg' = verbose cfg /\ strictFmask cfg' = strictFmask cfg /\
  tempDir cfg' = tempDir cfg.
Proof.
  cbv zeta. destruct cfg; simpl. split; [apply lookup_insert_eq|].
  split; [|repeat split]. intros role Hne. now apply lookup_insert_ne.
Qed.

(** X13. Two calls of [setReflectiveBand] for the same role leave the
    index of the second; two calls for different roles can be made in
    either order. *)
Theorem setReflectiveBand_twice (cfg : FmaskConfig) (band1 band2 i1 i2 : Z) :
  Config.setReflectiveBand (Config.setReflectiveBand cfg band1 i1) band1 i2
  = Config.setReflectiveBand cfg band1 i2 /\
  (band1 <> band2 ->
   Config.setReflectiveBand (Config.setReflectiveBand cfg band1 i1) band2 i2
   = Config.setReflectiveBand (Config.setReflectiveBand cfg band2 i2) band1 i1).
Proof.
  destruct cfg; simpl. split.
  - now rewrite insert_insert_eq.
  - intros Hne. f_equal. now apply insert_insert_ne.
Qed.

End ConfigFacts.

(** ** The thermal conversion *)

Section IndexFacts.

Context {A : Type}.

Lemma nth_error_lookup (l : list A) (n : nat) : nth_error l n = l !! n.
Proof.
  revert n. induction l as [|x l IH]; intros [|n]; simpl; auto.
Qed.

(** An index within the range reads the element counted from the front,
    or from the end when it is negative. *)
Lemma index_in_range (l : list A) (i : Z) :
  in_range (length l) i ->
  exists x,
    Np.index l i = Ok x /\
    l !! Z.to_nat (i mod Z.of_nat (length l)) = Some x.
Proof.
  unfold in_range, Np.index. intros Hi.
  set (n := Z.of_nat (length l)) in *.
  assert ((if i <? 0 then i + n else i) = i mod n) as ->.
  { destruct (Z.ltb_spec i 0).
    - apply Z.mod_unique with (q := -1); lia.
    - symmetry. apply Z.mod_small. lia. }
  assert (0 <= i mod n < n) as Hm by (apply Z.mod_pos_bound; lia).
  destruct (Z.leb_spec 0 (i mod n)); [|lia].
  destruct (Z.ltb_spec (i mod n) n); [|lia]. simpl.
  rewrite nth_error_lookup.
  destruct (lookup_lt_is_Some_2 l (Z.to_nat (i mod n))) as [x Hx];
    [subst n; lia|].
  rewrite Hx. eauto.
Qed.

Lemma index_out_of_range (l : list A) (i : Z) :
  ~ in_range (length l) i -> Np.index l i = Raise IndexError.
Proof.
  unfold in_range, Np.index. intros Hi.
  set (n := Z.of_nat (length l)) in *.
  destruct (Z.ltb_spec i 0);
    [destruct (Z.leb_spec 0 (i + n)), (Z.ltb_spec (i + n) n)
    |destruct (Z.leb_spec 0 i), (Z.ltb_spec i n)];
    simpl; try reflexivity; lia.
Qed.

Lemma index_error (l : list A) (i : Z) (e : exn) :
  Np.index l i = Raise e -> e = IndexError.
Proof.
  unfold Np.index.
  repeat match goal with
         | |- context [if ?c then _ else _] => destruct c
         | |- context [match ?c with _ => _ end] => destruct c
         end; congruence.
Qed.

End IndexFacts.

Section ThermalConversion.

Context `{Numpy}.

Lemma shape_map2 {A B : Type} (f : A -> B) (a : Np.array2 A) :
  shape (Np.map2 f a) = shape a.
Proof.
  unfold shape, Np.map2. rewrite map_map. apply map_ext.
  intros row. apply length_map.
Qed.

Lemma pixel_map2 {A B : Type} (f : A -> B) (a : Np.array2 A) (r c : nat) :
  pixel (Np.map2 f a) r c = f <$> pixel a r c.
Proof.
  unfold pixel, Np.map2, Np.array2 in *.
  change (map (map f) a) with (fmap (M := list) (map f) a).
  rewrite list_lookup_fmap. destruct (a !! r) as [row|]; [|reflexivity].
  simpl. change (map f row) with (fmap (M := list) f row).
  apply list_lookup_fmap.
Qed.

(** X14. The temperatures come in the shape of the thermal band: as many
    rows, and in each row as many values, as the band has. *)
Theorem scaleThermalDNtoC_shape (self : ThermalFileInfo)
    (scaledBT : list (Np.array2 Z)) :
  result_map shape (scaleThermalDNtoC self scaledBT) =
  result_map shape (Np.index scaledBT (thermalBand1040um self)).
Proof.
  rewrite scaleThermalDNtoC_fused.
  destruct (Np.index scaledBT (thermalBand1040um self)); cbn [bind result_map];
    [|reflexivity].
  now rewrite shape_map2.
Qed.

(** X15. Which band is converted: with [n] bands in the stack, a band
    index from [-n] to [n - 1] picks a band, a negative one counting from
    the end, and any other index is an [IndexError]. *)
Theorem scaleThermalDNtoC_band (self : ThermalFileInfo)
    (scaledBT : list (Np.array2 Z)) :
  (in_range (length scaledBT) (thermalBand1040um self) ->
   exists band,
     scaledBT !! Z.to_nat (thermalBand1040um self
                           mod Z.of_nat (length scaledBT)) = Some band /\
     scaleThermalDNtoC self scaledBT = Ok (Np.map2 (celsius_of_DN self) band)) /\
  (~ in_range (length scaledBT) (thermalBand1040um self) ->
   scaleThermalDNtoC self scaledBT = Raise IndexError).
Proof.
  rewrite scaleThermalDNtoC_fused. split.
  - intros Hi. destruct (index_in_range _ _ Hi) as (band & -> & Hband). eauto.
  - intros Hi. now rewrite (index_out_of_range _ _ Hi).
Qed.

(** X16. Every pixel whose radiance is zero or negative comes out with one
    and the same temperature, which depends on K1 and K2 only: that of the
    radiance 1e-5. *)
Theorem scaleThermalDNtoC_clamped_pixel (self : ThermalFileInfo)
    (scaledBT : list (Np.array2 Z)) (band : Np.array2 Z) (r c : nat) (dn : Z) :
  Np.index scaledBT (thermalBand1040um self) = Ok band ->
  pixel band r c = Some dn ->
  (radiance_of_DN self dn <=? 0)%float = true ->
  exists bt,
    scaleThermalDNtoC self scaledBT = Ok bt /\
    pixel bt r c =
    Some (thermalK2_1040um self
          / np_log (thermalK1_1040um self / 0.00001 + 1.0) - 273.15)%float.
Proof.
  intros Hband Hpixel Hrad. rewrite scaleThermalDNtoC_fused, Hband. cbn [bind].
  eexists. split; [reflexivity|].
  rewrite pixel_map2, Hpixel. simpl. f_equal.
  unfold celsius_of_DN, temperatureKelvin, clamp_radiance. now rewrite Hrad.
Qed.

End ThermalConversion.

Lemma scaleThermalDNtoC_clamped_pixel_witness :
  exists bt,
    @scaleThermalDNtoC Sample.numpy Sample.thermal_info Sample.thermal_stack
    = Ok bt /\
    pixel bt 0 1 =
    Some (1260.56 / Sample.log (607.76 / 0.00001 + 1.0) - 273.15)%float.
Proof.
  apply (@scaleThermalDNtoC_clamped_pixel Sample.numpy Sample.thermal_info
           Sample.thermal_stack [[3; 5]; [7; 9]] 0 1 5);
    vm_compute; reflexivity.
Defined.

(** ** The raster angle provider *)

Section AnglesFileFacts.

Context `{Numpy}.

(** X17. Releasing the memory of a new [AnglesFileInfo] succeeds and
    keeps the four file names and band numbers; after it the four buffers
    are gone, so each query raises [AttributeError], and so does a second
    release. *)
Theorem AnglesFileInfo_release
    (szFile : string) (szBand : Z) (saFile : string) (saBand : Z)
    (vzFile : string) (vzBand : Z) (vaFile : string) (vaBand : Z)
    (region : Np.indices) :
  let self :=
    AnglesFile.init szFile szBand saFile saBand vzFile vzBand vaFile vaBand in
  let released := (releaseMemory self).1 in
  (releaseMemory self).2 = Ok tt /\
  (solarZenithFilename released = szFile /\ solarZenithBand released = szBand /\
   solarAzimuthFilename released = saFile /\ solarAzimuthBand released = saBand /\
   viewZenithFilename released = vzFile /\ viewZenithBand released = vzBand /\
   viewAzimuthFilename released = vaFile /\ viewAzimuthBand released = vaBand) /\
  (getSolarZenithAngle released region = Raise AttributeError /\
   getSolarAzimuthAngle released region = Raise AttributeError /\
   getViewZenithAngle released region = Raise AttributeError /\
   getViewAzimuthAngle released region = Raise AttributeError) /\
  (releaseMemory released).2 = Raise AttributeError.
Proof. cbv zeta. repeat split. Qed.

Lemma prepareForQuerying_keeps_object (gdal : Gdal) (self : AnglesFileInfo) :
  (AnglesFile.prepareForQuerying gdal self).1 = self.
Proof.
  unfold AnglesFile.prepareForQuerying, AnglesFile.assign.
  rewrite readData_string_band.
  destruct (gdal_datasets gdal !! solarZenithFilename self); reflexivity.
Qed.

(** X18. The sequence the provider is made for, construct, prepare, query,
    never gives an angle: whatever the files, each query after
    [prepareForQuerying] on a new object raises [TypeError]. *)
Theorem AnglesFileInfo_prepare_then_query (gdal : Gdal)
    (szFile : string) (szBand : Z) (saFile : string) (saBand : Z)
    (vzFile : string) (vzBand : Z) (vaFile : string) (vaBand : Z)
    (region : Np.indices) :
  let self :=
    AnglesFile.init szFile szBand saFile saBand vzFile vzBand vaFile vaBand in
  let prepared := (prepareForQuerying gdal self).1 in
  getSolarZenithAngle prepared region = Raise TypeError /\
  getSolarAzimuthAngle prepared region = Raise TypeError /\
  getViewZenithAngle prepared region = Raise TypeError /\
  getViewAzimuthAngle prepared region = Raise TypeError.
Proof.
  cbv zeta. simpl prepareForQuerying. rewrite prepareForQuerying_keeps_object.
  repeat split.
Qed.

(** X19. [readData] with an integer band number gives a band exactly when
    the file opens and the number, counted from zero, is that of one of its
    bands; it is then that band. A negative number does not count from the
    end. Every failure is an [AttributeError]. *)
Theorem readData_outcome (gdal : Gdal) (filename : string) (n : Z) :
  (forall band,
     AnglesFile.readData gdal (PyStr filename) (PyInt n) = Ok band <->
     exists ds,
       gdal_datasets gdal !! filename = Some ds /\
       0 <= n /\ ds !! Z.to_nat n = Some band) /\
  (forall e,
     AnglesFile.readData gdal (PyStr filename) (PyInt n) = Raise e ->
     e = AttributeError).
Proof.
  unfold AnglesFile.readData. simpl.
  destruct (gdal_datasets gdal !! filename) as [ds|]; simpl.
  - destruct (Z.leb_spec 1 (n + 1)); simpl.
    + destruct (Z.leb_spec (n + 1) (Z.of_nat (length ds))); simpl.
      * replace (n + 1 - 1) with n by lia. rewrite nth_error_lookup.
        destruct (ds !! Z.to_nat n) as [b|] eqn:Hb; simpl; split.
        -- intros band. split.
           ++ intros [= <-]. exists ds. split; [reflexivity|]. split; [lia|exact Hb].
           ++ intros (ds' & [= <-] & _ & Hband). congruence.
        -- discriminate.
        -- intros band. split; [discriminate|].
           intros (ds' & [= <-] & _ & Hband). congruence.
        -- now intros e [= <-].
      * split; [|now intros e [= <-]].
        intros band. split; [discriminate|].
        intros (ds' & [= <-] & Hn & Hband).
        apply lookup_lt_Some in Hband. lia.
    + split; [|now intros e [= <-]].
      intros band. split; [discriminate|].
      intros (ds' & _ & Hn & _). lia.
  - split; [|now intros e [= <-]].
    intros band. split; [discriminate|]. intros (ds' & [=] & _).
Qed.



End AnglesFileFacts.

(** ** The Sentinel-2 reader and program *)

Section Sentinel2Facts.

Import Sentinel2.

Lemma node_ind_nested (P : node -> Prop) :
  (forall tag children, Forall P children -> P (Element tag children)) ->
  (forall data, P (Text data)) ->
  (forall data, P (Comment data)) ->
  forall n, P n.
Proof.
  intros HE HT HC. fix IH 1. intros [tag children|data|data];
    [apply HE|apply HT|apply HC].
  induction children as [|c children IHc]; constructor; [apply IH|exact IHc].
Qed.

Lemma elements_named_tagged (name : string) (n : node) :
  Forall (fun m => exists children, m = Element name children)
    (elements_named name n).
Proof.
  induction n as [tag children IH|data|data] using node_ind_nested;
    simpl; try constructor.
  apply Forall_app. split.
  - destruct (String.eqb_spec tag name) as [->|]; repeat constructor. eauto.
  - induction IH as [|c children Hc _ IHc]; simpl; [constructor|].
    apply Forall_app. auto.
Qed.

(** [getElementsByTagName] gives elements with the tag that was
    asked for and nothing else; a list of nodes is searched node after
    node; and an element is searched itself before its children, so that
    an element comes before the elements inside it. Character data holds
    no element. *)
Lemma getElementsByTagName_search (name : string) :
  (forall children,
     Forall (fun m => exists below, m = Element name below)
       (getElementsByTagName children name)) /\
  (forall first second,
     getElementsByTagName (first ++ second)%list name =
     (getElementsByTagName first name
      ++ getElementsByTagName second name)%list) /\
  (forall tag children,
     getElementsByTagName [Element tag children] name =
     ((if String.eqb tag name then [Element tag children] else [])
      ++ getElementsByTagName children name)%list) /\
  (forall data,
     getElementsByTagName [Text data] name = [] /\
     getElementsByTagName [Comment data] name = []).
Proof.
  unfold getElementsByTagName. repeat split.
  - intros children. induction children as [|c children IH]; simpl;
      [constructor|].
    apply Forall_app. split; [apply elements_named_tagged|exact IH].
  - intros first second. apply flat_map_app.
  - intros tag children. simpl. now rewrite app_nil_r.
Qed.

(** Nodes that follow a list of nodes in which the element is found do
    not change the result. *)
Lemma meanSunAngles_first_element (xmldoc more : list node) :
  getElementsByTagName xmldoc "Mean_Sun_Angle" <> [] ->
  meanSunAnglesOfDocument (xmldoc ++ more)%list = meanSunAnglesOfDocument xmldoc.
Proof.
  intros Hfound. unfold meanSunAnglesOfDocument.
  unfold getElementsByTagName at 1. rewrite flat_map_app.
  fold (getElementsByTagName xmldoc "Mean_Sun_Angle").
  destruct (getElementsByTagName xmldoc "Mean_Sun_Angle") as [|item items];
    [contradiction|].
  rewrite <- app_comm_cons, !index_head. reflexivity.
Qed.

Lemma getElementsByTagName_root (tag name : string) (children : list node) :
  tag <> name ->
  getElementsByTagName [Element tag children] name =
  getElementsByTagName children name.
Proof.
  intros Hne. unfold getElementsByTagName. simpl.
  apply String.eqb_neq in Hne. rewrite Hne. simpl. apply app_nil_r.
Qed.

(** X21. Of the [Mean_Sun_Angle] elements of a document the reader takes
    the first in document order: in a document with one root element
    (itself not a [Mean_Sun_Angle]) in which the element is found, further
    children of the root, other [Mean_Sun_Angle] elements among them, do
    not change the result. *)
Theorem meanSunAngles_first_in_root (tag : string)
    (children more : list node) :
  tag <> "Mean_Sun_Angle" ->
  getElementsByTagName children "Mean_Sun_Angle" <> [] ->
  meanSunAnglesOfDocument [Element tag (children ++ more)%list] =
  meanSunAnglesOfDocument [Element tag children].
Proof.
  intros Htag Hfound. unfold meanSunAnglesOfDocument.
  rewrite !(getElementsByTagName_root _ _ _ Htag).
  unfold getElementsByTagName at 1. rewrite flat_map_app.
  fold (getElementsByTagName children "Mean_Sun_Angle").
  destruct (getElementsByTagName children "Mean_Sun_Angle") as [|item items];
    [contradiction|].
  rewrite <- app_comm_cons, !index_head. reflexivity.
Qed.

Lemma meanSunAngles_first_in_root_witness :
  meanSunAnglesOfDocument
    [Element Sample.granule_root
       (Sample.granule_body ++ Sample.second_angle)%list] =
  meanSunAnglesOfDocument [Element Sample.granule_root Sample.granule_body].
Proof.
  apply (meanSunAngles_first_in_root Sample.granule_root Sample.granule_body
           Sample.second_angle).
  - vm_compute. discriminate.
  - vm_compute. discriminate.
Defined.

(** The sample granule with a second [Mean_Sun_Angle] of 60.0 and 10.0
    degrees after the first: the angles returned are those of the first. *)
Example meanSunAngles_first_in_root_sample :
  meanSunAnglesOfDocument
    [Element Sample.granule_root
       (Sample.granule_body ++ Sample.second_angle)%list] =
  Ok (AngleConstant.init (PyFloat 30.0) (PyFloat 150.0) (PyInt 0) (PyInt 0)).
Proof. vm_compute. reflexivity. Qed.

Lemma data_of_error (n : option node) (e : exn) :
  data_of n = Raise e -> e = AttributeError.
Proof. destruct n as [[| |]|]; simpl; congruence. Qed.

(** X22. How the reader of the mean sun angles ends on a parsed document:
    a failure is an [IndexError] (no such element), an [AttributeError]
    (an element without text) or a [ValueError] (text that is not a
    numeral), never an error of the package; a result has two floats as
    solar angles and the integer 0 as both view angles. *)
Theorem meanSunAngles_outcome (xmldoc : list node) :
  (forall e,
     meanSunAnglesOfDocument xmldoc = Raise e ->
     e = IndexError \/ e = AttributeError \/ e = ValueError) /\
  (forall angles,
     meanSunAnglesOfDocument xmldoc = Ok angles ->
     viewZenithAngle angles = PyInt 0 /\ viewAzimuthAngle angles = PyInt 0 /\
     exists zenith azimuth,
       solarZenithAngle angles = PyFloat zenith /\
       solarAzimuthAngle angles = PyFloat azimuth).
Proof.
  unfold meanSunAnglesOfDocument.
  repeat match goal with
         | |- context [bind ?c _] => destruct c eqn:?; cbn [bind]
         end;
    (split; [intros e' [= <-]|intros angles' [= <-]]);
    try match goal with
        | Herr : _ = Raise _ |- _ =>
            first [ apply index_error in Herr
                  | apply py_float_error in Herr
                  | apply data_of_error in Herr ];
            subst; auto
        end.
  simpl. eauto 10.
Qed.

End Sentinel2Facts.

(** ** The Landsat angle reader, read backwards *)

Section LandsatAnglesFacts.

(** X23. What the outcome of the Landsat angle reader tells about the
    dictionary. A result comes only from a dictionary with numerals under
    both sun keys, and every query on it, whatever the region, answers
    [radians(90 - elevation)], [radians(azimuth)], [0.0] and [0.0]. A
    failure is a [ValueError], or the file-format error, and that one only
    when one of the two keys is absent. *)
Theorem anglesFromMTLData_outcome (mtl : gmap string string) :
  (forall angles,
     anglesFromMTLData mtl = Ok angles ->
     exists (sa se : string) (azimuth elevation : float),
       mtl !! "SUN_AZIMUTH" = Some sa /\
       mtl !! "SUN_ELEVATION" = Some se /\
       Float.py_float sa = Ok azimuth /\
       Float.py_float se = Ok elevation /\
       forall region : Np.indices,
         getSolarZenithAngle angles region
         = Ok (PyFloat (Float.np_radians (90.0 - elevation)%float)) /\
         getSolarAzimuthAngle angles region
         = Ok (PyFloat (Float.np_radians azimuth)) /\
         getViewZenithAngle angles region = Ok (PyFloat 0.0) /\
         getViewAzimuthAngle angles region = Ok (PyFloat 0.0)) /\
  (forall e,
     anglesFromMTLData mtl = Raise e ->
     e = ValueError \/
     exists msg,
       e = FmaskFileError msg /\
       (mtl !! "SUN_AZIMUTH" = None \/ mtl !! "SUN_ELEVATION" = None)).
Proof.
  unfold anglesFromMTLData, float_item, contains, getitem.
  destruct (mtl !! "SUN_AZIMUTH") as [sa|] eqn:Ha; cbn [bind].
  - destruct (Float.py_float sa) as [azimuth|ea] eqn:Hpa; cbn [bind].
    + destruct (mtl !! "SUN_ELEVATION") as [se|] eqn:He; cbn [bind].
      * destruct (Float.py_float se) as [elevation|ee] eqn:Hpe; cbn [bind].
        -- split; [|discriminate]. intros angles [= <-].
           exists sa, se, azimuth, elevation. repeat split; assumption.
        -- split; [discriminate|]. intros e [= <-].
           left. eapply py_float_error; eauto.
      * split; [discriminate|]. intros e [= <-]. right. eauto.
    + split; [discriminate|]. intros e [= <-].
      left. eapply py_float_error; eauto.
  - destruct (mtl !! "SUN_ELEVATION") as [se|] eqn:He; cbn [bind].
    + destruct (Float.py_float se) as [elevation|ee] eqn:Hpe; cbn [bind].
      * split; [discriminate|]. intros e [= <-]. right. eauto.
      * split; [discriminate|]. intros e [= <-].
        left. eapply py_float_error; eauto.
    + split; [discriminate|]. intros e [= <-]. right. eauto.
Qed.

End LandsatAnglesFacts.

(** ** The command line program *)

Section MainRoutine.

Import Sentinel2 Sentinel2Main.

Context `{Minidom} `{Fmask}.

Lemma of_result_not_exit {A : Type} (r : result A) (status : Z) :
  of_result r <> Exited status.
Proof. now destruct r. Qed.

(** On the options [parse_args] returned, the routine exits, and then
    with status 1, exactly when one of [output], [toa] and [xml] is
    missing. *)
Lemma mainRoutine_exit (gdal : Gdal) (options : Options) :
  (mainRoutine gdal options = Exited 1 <->
   output options = None \/ toa options = None \/ xml options = None) /\
  (forall status, mainRoutine gdal options = Exited status -> status = 1).
Proof.
  unfold mainRoutine, CmdArgs.
  destruct options as [[t|] [o|] [x|] v k]; simpl;
    try (split; [split; auto|now intros status [= <-]]).
  destruct (getMeanSunAngles x) as [angles|e]; simpl;
    [destruct (Config.init gdal FMASK_SENTINEL2) as [cfg|e]; simpl|];
    (split; [split; [|intros [|[|]]; discriminate]|]);
    try discriminate;
    try (intros Hx; now apply of_result_not_exit in Hx);
    intros status Hx; now apply of_result_not_exit in Hx.
Qed.

(** X25. With the three options given, a granule file that yields the
    angles and the driver at hand, the program hands over to [doFmask], and
    its outcome is that of [doFmask]. The file names handed over are the
    reflectance stack and the output mask, with no thermal file and no
    saturation mask; the configuration is that of Sentinel-2 with the
    angles of the granule, no thermal information, the two flags of the
    command line and every other default. *)
Theorem mainRoutine_hands_over (gdal : Gdal) (toaFile outputFile xmlFile : string)
    (verboseFlag keepFlag : bool) (angles : AngleConstantInfo)
    (cfg : FmaskConfig) :
  getMeanSunAngles xmlFile = Ok angles ->
  Config.init gdal FMASK_SENTINEL2 = Ok cfg ->
  exists (names : FmaskFilenames) (config : FmaskConfig),
    mainRoutine gdal
      (mkOptions (Some toaFile) (Some outputFile) (Some xmlFile)
         verboseFlag keepFlag)
    = of_result (doFmask names config) /\
    toaRef names = Some toaFile /\ outputMask names = Some outputFile /\
    thermal names = None /\ saturationMask names = None /\
    sensor config = FMASK_SENTINEL2 /\ bands config = bands cfg /\
    anglesInfo config = Some (ConstantAngles angles) /\
    thermalInfo config = None /\
    verbose config = verboseFlag /\ keepIntermediates config = keepFlag /\
    cloudBufferSize config = 5 /\ shadowBufferSize config = 10 /\
    strictFmask config = false /\ tempDir config = "." /\
    defaultExtension config = defaultExtension cfg.
Proof.
  intros Hangles Hcfg. unfold mainRoutine, CmdArgs. simpl.
  rewrite Hangles, Hcfg.
  destruct (FmaskConfig_init_defaults_of _ _ _ Hcfg)
    as (Hs & Ht & _ & _ & Hc & Hsh & _ & Hst & Htd).
  eexists _, _. split; [reflexivity|].
  destruct cfg; simpl in *. subst. repeat split.
Qed.

(** The order of the failures on options that hold the three file names:
    the reader of the angles first, the constructor second. *)
Lemma mainRoutine_failures (gdal : Gdal) (toaFile outputFile xmlFile : string)
    (verboseFlag keepFlag : bool) :
  let options :=
    mkOptions (Some toaFile) (Some outputFile) (Some xmlFile)
      verboseFlag keepFlag in
  (forall e,
     getMeanSunAngles xmlFile = Raise e ->
     mainRoutine gdal options = Raised e) /\
  (forall angles e,
     getMeanSunAngles xmlFile = Ok angles ->
     Config.init gdal FMASK_SENTINEL2 = Raise e ->
     mainRoutine gdal options = Raised e /\ in_taxonomy e = true).
Proof.
  cbv zeta. unfold mainRoutine, CmdArgs. simpl. split.
  - intros e ->. reflexivity.
  - intros angles e -> Hcfg. rewrite Hcfg. split; [reflexivity|].
    unfold Config.init in Hcfg. simpl in Hcfg.
    destruct (gdal_drivers gdal !! DEFAULTDRIVERNAME gdal); [discriminate|].
    now injection Hcfg as <-.
Qed.

Context `{Optparse}.

(** X24. How the program exits on a command line. When optparse exits
    itself (status 0 after [-h], status 2 after a command line it
    refuses), the program exits with that status. When optparse returns
    the options, the program exits exactly when one of [--output],
    [--toa] and [--xml] is missing, and then with status 1. Either way
    this is decided before the granule file, GDAL or [doFmask] are looked
    at. *)
Theorem program_exit (gdal : Gdal) (argv : list string) :
  (forall status,
     parse_args argv = Exited status -> program gdal argv = Exited status) /\
  (forall options,
     parse_args argv = Returned options ->
     (program gdal argv = Exited 1 <->
      output options = None \/ toa options = None \/ xml options = None) /\
     (forall status, program gdal argv = Exited status -> status = 1)).
Proof.
  unfold program. split.
  - intros status ->. reflexivity.
  - intros options ->. apply mainRoutine_exit.
Qed.

(** X26. The order of the failures on a command line from which optparse
    returns the three file names: a granule file that cannot be read for
    its angles ends the program with the exception of the reader, whatever
    the drivers; with the angles read, a failing constructor ends it with
    the configuration error. In neither case is the outcome that of
    [doFmask]. *)
Theorem program_failures (gdal : Gdal) (argv : list string)
    (toaFile outputFile xmlFile : string) (verboseFlag keepFlag : bool) :
  parse_args argv =
  Returned (mkOptions (Some toaFile) (Some outputFile) (Some xmlFile)
              verboseFlag keepFlag) ->
  (forall e,
     getMeanSunAngles xmlFile = Raise e ->
     program gdal argv = Raised e) /\
  (forall angles e,
     getMeanSunAngles xmlFile = Ok angles ->
     Config.init gdal FMASK_SENTINEL2 = Raise e ->
     program gdal argv = Raised e /\ in_taxonomy e = true).
Proof.
  intros Hparse. unfold program. rewrite Hparse. apply mainRoutine_failures.
Qed.

End MainRoutine.

(** The sample command lines: [-h] exits with 0, a command line without
    the output exits with 1, a command line optparse refuses with 2. *)
Example program_exit_sample :
  @Sentinel2Main.program Sample.optparse Sample.minidom Sample.fmask
    Sample.gdal_hfa ["-h"] = Sentinel2Main.Exited 0 /\
  @Sentinel2Main.program Sample.optparse Sample.minidom Sample.fmask
    Sample.gdal_hfa ["-a"; "toa.img"; "-x"; "granule.xml"]
  = Sentinel2Main.Exited 1 /\
  @Sentinel2Main.program Sample.optparse Sample.minidom Sample.fmask
    Sample.gdal_hfa ["--colour"] = Sentinel2Main.Exited 2.
Proof. repeat split; vm_compute; reflexivity. Qed.

Lemma program_failures_witness :
  @Sentinel2Main.program Sample.optparse Sample.minidom Sample.fmask
    (mkGdal ∅ ∅ "HFA")
    ["-a"; "toa.img"; "-o"; "cloud.img"; "-x"; "granule.xml"; "-v"]
  = Sentinel2Main.Raised
      (FmaskParameterError "Cannot find GDAL driver HFA used by RIOS") /\
  in_taxonomy (FmaskParameterError "Cannot find GDAL driver HFA used by RIOS")
  = true.
Proof.
  apply (proj2 (@program_failures Sample.minidom Sample.fmask Sample.optparse
                  (mkGdal ∅ ∅ "HFA")
                  ["-a"; "toa.img"; "-o"; "cloud.img"; "-x"; "granule.xml"; "-v"]
                  "toa.img" "cloud.img" "granule.xml" true false eq_refl)
           (AngleConstant.init (PyFloat 30.0) (PyFloat 150.0)
              (PyInt 0) (PyInt 0)));
    vm_compute; reflexivity.
Defined.

Lemma mainRoutine_hands_over_witness :
  exists (names : FmaskFilenames) (config : FmaskConfig),
    @Sentinel2Main.mainRoutine Sample.minidom Sample.fmask Sample.gdal_hfa
      (Sentinel2Main.mkOptions (Some "toa.img") (Some "cloud.img")
         (Some "granule.xml") true false)
    = Sentinel2Main.of_result
        (@Sentinel2Main.doFmask Sample.fmask names config) /\
    toaRef names = Some "toa.img" /\ outputMask names = Some "cloud.img" /\
    thermal names = None /\ saturationMask names = None /\
    sensor config = FMASK_SENTINEL2 /\
    bands config = bands Sample.sentinel2_config /\
    anglesInfo config =
    Some (ConstantAngles
            (AngleConstant.init (PyFloat 30.0) (PyFloat 150.0)
               (PyInt 0) (PyInt 0))) /\
    thermalInfo config = None /\
    verbose config = true /\ keepIntermediates config = false /\
    cloudBufferSize config = 5 /\ shadowBufferSize config = 10 /\
    strictFmask config = false /\ tempDir config = "." /\
    defaultExtension config = defaultExtension Sample.sentinel2_config.
Proof.
  apply (@mainRoutine_hands_over Sample.minidom Sample.fmask Sample.gdal_hfa
           "toa.img" "cloud.img" "granule.xml" true false
           (AngleConstant.init (PyFloat 30.0) (PyFloat 150.0) (PyInt 0) (PyInt 0))
           Sample.sentinel2_config);
    vm_compute; reflexivity.
Defined.
